(** * pdeploy: the deployment driver of direct/src/p3d/pdeploy.py

    A shallow embedding of the command-line driver [pdeploy.py] and the
    properties of its request validation, platform selection, output
    paths and exit status.

    The script is Python 2.  Its [str] values are byte strings, modelled
    as [string]; the [tokens] dict is a [gmap string string]; everything
    the script prints, every call it makes into [DeploymentTools] and
    every file operation is recorded, in order, in a trace of [Event]s;
    [sys.exit] and uncaught exceptions end the run with a [Status]. *)

From Stdlib Require Import String Ascii List Bool ZArith Lia.
From stdpp Require Import base option strings gmap.
Import ListNotations.

Local Open Scope Z_scope.

(** ** Python string primitives used by the script *)

Module Py.

(** The double quote and the newline, written by code point. *)
Definition dq : string := String "034"%char EmptyString.
Definition nl : string := String "010"%char EmptyString.

Definition is_upper (c : ascii) : bool :=
  let n := N_of_ascii c in ((65 <=? n) && (n <=? 90))%N.

(** [c.lower()] for one byte: only A..Z change. *)
Definition lower_char (c : ascii) : ascii :=
  if is_upper c then ascii_of_N (N_of_ascii c + 32) else c.

(** [s.lower()] *)
Fixpoint lower (s : string) : string :=
  match s with
  | EmptyString => EmptyString
  | String c r => String (lower_char c) (lower r)
  end.

(** The bytes [str.strip()] removes: space, \t, \n, \v, \f, \r. *)
Definition is_space (c : ascii) : bool :=
  let n := N_of_ascii c in ((n =? 32) || ((9 <=? n) && (n <=? 13)))%N.

Fixpoint lstrip (s : string) : string :=
  match s with
  | EmptyString => EmptyString
  | String c r => if is_space c then lstrip r else s
  end.

Fixpoint rstrip (s : string) : string :=
  match s with
  | EmptyString => EmptyString
  | String c r =>
      match rstrip r with
      | EmptyString => if is_space c then EmptyString else String c EmptyString
      | r' => String c r'
      end
  end.

(** [s.strip()] *)
Definition strip (s : string) : string := rstrip (lstrip s).

(** [c in s] for a one-byte [c]. *)
Fixpoint contains (c : ascii) (s : string) : bool :=
  match s with
  | EmptyString => false
  | String a r => Ascii.eqb a c || contains c r
  end.

(** [s.startswith(p)] *)
Definition startswith (s p : string) : bool := String.prefix p s.

(** The first occurrence of [c] cuts [s] in two; [None] without one. *)
Fixpoint partition (c : ascii) (s : string) : option (string * string) :=
  match s with
  | EmptyString => None
  | String a r =>
      if Ascii.eqb a c then Some (EmptyString, r)
      else match partition c r with
           | Some (h, t) => Some (String a h, t)
           | None => None
           end
  end.

(** The last occurrence of [c] cuts [s] in two; [None] without one. *)
Fixpoint rpartition (c : ascii) (s : string) : option (string * string) :=
  match s with
  | EmptyString => None
  | String a r =>
      match rpartition c r with
      | Some (h, t) => Some (String a h, t)
      | None => if Ascii.eqb a c then Some (EmptyString, r) else None
      end
  end.

(** [s.split(c, 1)]: at most one cut, so one or two fields. *)
Definition split1 (c : ascii) (s : string) : list string :=
  match partition c s with
  | Some (h, t) => [h; t]
  | None => [s]
  end.

End Py.

(** ** Filename *)

(** The [Filename] class comes from [pandac.PandaModules], whose code
    is not among the sources at hand; the script only constructs
    Filenames and asks them for their parts.  A Filename is held as its
    full path, with [/] between directories. *)
Module Filename.

Definition t := string.

(** Modelled from the spec: [Filename()], the empty path (no license
    file, no output directory). *)
Definition empty : t := EmptyString.

(** Modelled from the spec: the truth value of a Filename, false exactly
    when no path was given (the output directory "cannot be
    determined"). *)
Definition nonzero (f : t) : bool := negb (String.eqb f EmptyString).

Fixpoint ends_with_slash (s : string) : bool :=
  match s with
  | EmptyString => false
  | String c EmptyString => Ascii.eqb c "/"
  | String _ r => ends_with_slash r
  end.

(** Modelled from the spec: [Filename(dirname, basename)], the path of
    [basename] "under" the directory [dirname]: [out] and
    [win32/app.exe] give [out/win32/app.exe].  A directory that already
    ends in [/] gets no second one, and under no directory the name
    stands alone. *)
Definition join (dirname : t) (basename : string) : t :=
  if String.eqb dirname EmptyString then basename
  else if ends_with_slash dirname then dirname +:+ basename
  else dirname +:+ "/" +:+ basename.

(** Modelled from the spec: [f.getBasename()], the "base file name":
    what follows the last [/]. *)
Definition getBasename (f : t) : string :=
  match Py.rpartition "/" f with
  | Some (_, b) => b
  | None => f
  end.

(** Modelled from the spec: [f.getExtension()], the "file extension":
    what follows the last [.] of the base name, nothing without one. *)
Definition getExtension (f : t) : string :=
  match Py.rpartition "." (getBasename f) with
  | Some (_, e) => e
  | None => EmptyString
  end.

(** Modelled from the spec: [f.getBasenameWoExtension()], the "base file
    name without extension". *)
Definition getBasenameWoExtension (f : t) : string :=
  match Py.rpartition "." (getBasename f) with
  | Some (b, _) => b
  | None => getBasename f
  end.

End Filename.

(** ** The outside world, events and the run monad *)

(** What a builder call gives back; the script never looks at it. *)
Inductive BuildResult :=
| Success
| Failure (reason : string).

Inductive Outcome :=
| Returns (r : BuildResult)
| Raises.

(** The calls into [DeploymentTools], with their arguments. *)
Inductive Call :=
| NewStandalone (app : Filename.t) (tokens : gmap string string)
| StandaloneBuild (output : Filename.t) (platform : string)
| StandaloneBuildAll (outputDir : Filename.t)
| NewInstaller (shortname fullname : string) (app : Filename.t)
    (version : string) (tokens : gmap string string)
| InstallerBuild (output : Filename.t) (platform : string)
| InstallerBuildAll (outputDir : Filename.t).

Inductive Event :=
| Print (s : string)              (* print s *)
| PrintErr (s : string)           (* print >> sys.stderr, s *)
| PrintUsage (prog : string)      (* print >> sys.stderr, usageText % {'prog': prog} *)
| Invoke (c : Call)
| SetBasename (s : string)        (* s.basename = ... *)
| SetLicensename (s : string)     (* i.licensename = ... *)
| SetLicensefile (f : Filename.t) (* i.licensefile = ... *)
| FileOpen (name : string)        (* open(name, "w") *)
| FileWrite (s : string)
| FileClose.

Inductive Exc :=
| IndexError
| NameError
| IOError
| BuilderError.

Inductive Status :=
| Exit (code : Z)
| Uncaught (e : Exc).

(** Everything the script asks of its surroundings.  [collaborator]
    answers a call from the trace so far and the call itself, so the
    outcomes of successive builds are an arbitrary sequence. *)
Record World := mkWorld {
  prog : string;                              (* os.path.split(sys.argv[0])[1] *)
  fromOsSpecific : string -> Filename.t;      (* Filename.fromOsSpecific *)
  file_exists : Filename.t -> bool;           (* Filename.exists *)
  getPlatform : string;                       (* PandaSystem.getPlatform() *)
  can_open : string -> bool;                  (* whether open(name, "w") succeeds *)
  collaborator : list Event -> Call -> Outcome
}.

(** A computation extends the trace and either ends the run or goes on
    with a value. *)
Definition M (A : Type) : Type := list Event -> list Event * (Status + A).

Definition ret {A} (a : A) : M A := fun t => (t, inr a).

Definition bind {A B} (m : M A) (k : A -> M B) : M B :=
  fun t => match m t with
           | (t', inl s) => (t', inl s)
           | (t', inr a) => k a t'
           end.

#[global] Instance M_ret : MRet M := @ret.
#[global] Instance M_bind : MBind M := fun A B k m => bind m k.

Definition emit (e : Event) : M unit := fun t => (t ++ [e], inr tt).

(** [sys.exit(code)] *)
Definition sys_exit {A} (code : Z) : M A := fun t => (t, inl (Exit code)).

Definition raise {A} (e : Exc) : M A := fun t => (t, inl (Uncaught e)).

(** [l[i]] *)
Definition index (l : list string) (i : nat) : M string :=
  match l !! i with
  | Some x => ret x
  | None => raise IndexError
  end.

(** A call into [DeploymentTools]: recorded, then answered by the world. *)
Definition invoke (w : World) (c : Call) : M BuildResult :=
  fun t => match collaborator w t c with
           | Returns r => (t ++ [Invoke c], inr r)
           | Raises => (t ++ [Invoke c], inl (Uncaught BuilderError))
           end.

(** [for x in l: body x] *)
Fixpoint for_each {A} (body : A -> M unit) (l : list A) : M unit :=
  match l with
  | [] => ret tt
  | x :: r => body x;; for_each body r
  end.

(** [for x in l: s = step s x] *)
Fixpoint fold_each {A S} (step : S -> A -> M S) (s : S) (l : list A) : M S :=
  match l with
  | [] => ret s
  | x :: r => s' ← step s x; fold_each step s' r
  end.

(** ** The script *)

(** The module-level variables of lines 105-113. *)
Record Globals := mkGlobals {
  shortname : string;
  fullname : string;
  version : string;
  outputDir : Filename.t;
  tokens : gmap string string;
  platforms : list string;
  currentPlatform : bool;
  licensename : string;
  licensefile : Filename.t
}.

Definition initial : Globals :=
  {| shortname := ""; fullname := ""; version := "";
     outputDir := "./"; tokens := ∅; platforms := [];
     currentPlatform := false; licensename := "";
     licensefile := Filename.empty |}.

Definition set_shortname (v : string) (g : Globals) : Globals :=
  mkGlobals v (fullname g) (version g) (outputDir g) (tokens g)
            (platforms g) (currentPlatform g) (licensename g) (licensefile g).
Definition set_fullname (v : string) (g : Globals) : Globals :=
  mkGlobals (shortname g) v (version g) (outputDir g) (tokens g)
            (platforms g) (currentPlatform g) (licensename g) (licensefile g).
Definition set_version (v : string) (g : Globals) : Globals :=
  mkGlobals (shortname g) (fullname g) v (outputDir g) (tokens g)
            (platforms g) (currentPlatform g) (licensename g) (licensefile g).
Definition set_outputDir (v : Filename.t) (g : Globals) : Globals :=
  mkGlobals (shortname g) (fullname g) (version g) v (tokens g)
            (platforms g) (currentPlatform g) (licensename g) (licensefile g).
Definition set_tokens (v : gmap string string) (g : Globals) : Globals :=
  mkGlobals (shortname g) (fullname g) (version g) (outputDir g) v
            (platforms g) (currentPlatform g) (licensename g) (licensefile g).
Definition set_platforms (v : list string) (g : Globals) : Globals :=
  mkGlobals (shortname g) (fullname g) (version g) (outputDir g) (tokens g)
            v (currentPlatform g) (licensename g) (licensefile g).
Definition set_currentPlatform (v : bool) (g : Globals) : Globals :=
  mkGlobals (shortname g) (fullname g) (version g) (outputDir g) (tokens g)
            (platforms g) v (licensename g) (licensefile g).
Definition set_licensename (v : string) (g : Globals) : Globals :=
  mkGlobals (shortname g) (fullname g) (version g) (outputDir g) (tokens g)
            (platforms g) (currentPlatform g) v (licensefile g).
Definition set_licensefile (v : Filename.t) (g : Globals) : Globals :=
  mkGlobals (shortname g) (fullname g) (version g) (outputDir g) (tokens g)
            (platforms g) (currentPlatform g) (licensename g) v.

(** Line 92. *)
Definition DEPLOY_MODES : list string := ["standalone"; "installer"; "html"].

(** [usage(code, msg)], lines 100-103. *)
Definition usage {A} (w : World) (code : Z) (msg : string) : M A :=
  emit (PrintUsage (prog w));;
  emit (PrintErr msg);;
  sys_exit code.

(** [if c: body] *)
Definition when (c : bool) (body : M unit) : M unit :=
  if c then body else mret tt.

(** What [getopt.getopt(sys.argv[1:], 'n:N:v:o:t:P:cl:L:h')] hands to the
    script: the option pairs and the remaining arguments, or
    [getopt.error] with its message. *)
Inductive Getopt :=
| GetoptError (msg : string)
| GetoptOk (opts : list (string * string)) (args : list string).

(** The body of the option loop, lines 121-145. *)
Definition option_step (w : World) (g : Globals) (oa : string * string) : M Globals :=
  let (opt, arg) := oa in
  if String.eqb opt "-n" then mret (set_shortname (Py.strip arg) g)
  else if String.eqb opt "-N" then mret (set_fullname (Py.strip arg) g)
  else if String.eqb opt "-v" then mret (set_version (Py.strip arg) g)
  else if String.eqb opt "-o" then mret (set_outputDir (fromOsSpecific w arg) g)
  else if String.eqb opt "-t" then
    let token := Py.split1 "=" (Py.strip arg) in
    v ← index token 1;
    k ← index token 0;
    mret (set_tokens (<[k := v]> (tokens g)) g)
  else if String.eqb opt "-P" then mret (set_platforms (platforms g ++ [arg]) g)
  else if String.eqb opt "-c" then mret (set_currentPlatform true g)
  else if String.eqb opt "-l" then mret (set_licensename (Py.strip arg) g)
  else if String.eqb opt "-L" then mret (set_licensefile (fromOsSpecific w arg) g)
  else if String.eqb opt "-h" then usage w 0 ""
  else raise NameError (* [flag] is not defined *).

(** Lines 120-145. *)
Definition parse_options (w : World) (opts : list (string * string)) : M Globals :=
  fold_each (option_step w) initial opts.

Definition msg_extension : string :=
  "Application filename must end in " +:+ Py.dq +:+ ".p3d" +:+ Py.dq +:+ ".".
Definition msg_missing : string := "Application filename does not exist!".
Definition msg_shortname : string :=
  Py.nl +:+ "Provided short name should be lowercase, and may not contain spaces!" +:+ Py.nl.
Definition msg_version : string :=
  Py.nl +:+ "A version number is required in " +:+ Py.dq +:+ "installer" +:+ Py.dq
        +:+ " mode." +:+ Py.nl.
Definition msg_outputDir : string :=
  Py.nl +:+ "You must name the output directory with the -o parameter." +:+ Py.nl.
Definition msg_mode : string := "Invalid deployment mode!".

(** What the checks of lines 147-175 leave for the dispatch: the
    variables as they stand at line 176. *)
Record Request := mkRequest {
  appFilename : Filename.t;
  deploy_mode : string;
  vars : Globals
}.

(** Lines 147-175. *)
Definition validate (w : World) (g : Globals) (args : list string) : M Request :=
  when (match args with [] => true | _ => false end
        || negb (Nat.eqb (length args) 2))
       (usage w 1 "");;
  a0 ← index args 0;
  let appFilename := fromOsSpecific w a0 in
  when (negb (String.eqb (Py.lower (Filename.getExtension appFilename)) "p3d"))
       (emit (Print msg_extension);; sys_exit 1);;
  a1 ← index args 1;
  let deploy_mode := Py.lower a1 in
  when (negb (file_exists w appFilename))
       (emit (Print msg_missing);; sys_exit 1);;
  when (negb (String.eqb (Py.lower (shortname g)) (shortname g))
        || Py.contains " " (shortname g))
       (emit (Print msg_shortname));;
  let g := if String.eqb (shortname g) ""
           then set_shortname (Filename.getBasenameWoExtension appFilename) g
           else g in
  let g := if String.eqb (fullname g) ""
           then set_fullname (shortname g) g
           else g in
  when (String.eqb (version g) "" && String.eqb deploy_mode "installer")
       (emit (Print msg_version);; sys_exit 1);;
  when (negb (Filename.nonzero (outputDir g)))
       (emit (Print msg_outputDir);; sys_exit 1);;
  mret (mkRequest appFilename deploy_mode g).

(** [open(name, "w")] *)
Definition fopen (w : World) (name : string) : M unit :=
  fun t => if can_open w name then (t ++ [FileOpen name], inr tt)
           else (t, inl (Uncaught IOError)).

(** Lines 177-194. *)
Definition deploy_standalone (w : World) (r : Request) : M unit :=
  let g := vars r in
  invoke w (NewStandalone (appFilename r) (tokens g));;
  emit (SetBasename (shortname g));;
  if currentPlatform g then
    let platform := getPlatform w in
    if Py.startswith platform "win" then
      invoke w (StandaloneBuild
                  (Filename.join (outputDir g) (shortname g +:+ ".exe")) platform);;
      mret tt
    else
      invoke w (StandaloneBuild
                  (Filename.join (outputDir g) (shortname g)) platform);;
      mret tt
  else if Nat.eqb (length (platforms g)) 0 then
    invoke w (StandaloneBuildAll (outputDir g));;
    mret tt
  else
    for_each (fun platform =>
      if Py.startswith platform "win" then
        invoke w (StandaloneBuild
                    (Filename.join (outputDir g)
                       (platform +:+ "/" +:+ shortname g +:+ ".exe")) platform);;
        mret tt
      else
        invoke w (StandaloneBuild
                    (Filename.join (outputDir g)
                       (platform +:+ "/" +:+ shortname g)) platform);;
        mret tt) (platforms g).

(** Lines 196-214. *)
Definition deploy_installer (w : World) (r : Request) : M unit :=
  let g := vars r in
  invoke w (NewInstaller (shortname g) (fullname g) (appFilename r)
              (version g) (tokens g));;
  emit (SetLicensename (licensename g));;
  emit (SetLicensefile (licensefile g));;
  if currentPlatform g then
    let platform := getPlatform w in
    if Py.startswith platform "win" then
      invoke w (InstallerBuild (outputDir g) platform);;
      mret tt
    else
      invoke w (InstallerBuild (outputDir g) platform);;
      mret tt
  else if Nat.eqb (length (platforms g)) 0 then
    invoke w (InstallerBuildAll (outputDir g));;
    mret tt
  else
    for_each (fun platform =>
      if Py.startswith platform "win" then
        invoke w (InstallerBuild
                    (Filename.join (outputDir g) (platform +:+ "/")) platform);;
        mret tt
      else
        invoke w (InstallerBuild
                    (Filename.join (outputDir g) (platform +:+ "/")) platform);;
        mret tt) (platforms g).

(** Lines 215-226. *)
Definition deploy_html (w : World) (r : Request) : M unit :=
  let g := vars r in
  emit (Print ("Creating " +:+ shortname g +:+ ".html..."));;
  fopen w (shortname g +:+ ".html");;
  emit (FileWrite ("<html>" +:+ Py.nl));;
  emit (FileWrite ("  <head>" +:+ Py.nl));;
  emit (FileWrite ("    <title>" +:+ fullname g +:+ "</title>" +:+ Py.nl));;
  emit (FileWrite ("  </head>" +:+ Py.nl));;
  emit (FileWrite ("  <body>" +:+ Py.nl));;
  emit (FileWrite ("    <object data=" +:+ Py.dq
                   +:+ Filename.getBasename (appFilename r) +:+ Py.dq
                   +:+ " type=" +:+ Py.dq +:+ "application/x-panda3d" +:+ Py.dq
                   +:+ "></object>" +:+ Py.nl));;
  emit (FileWrite ("  </body>" +:+ Py.nl));;
  emit (FileWrite ("</html>" +:+ Py.nl));;
  emit FileClose.

(** Lines 177-228. *)
Definition dispatch (w : World) (r : Request) : M unit :=
  if String.eqb (deploy_mode r) "standalone" then deploy_standalone w r
  else if String.eqb (deploy_mode r) "installer" then deploy_installer w r
  else if String.eqb (deploy_mode r) "html" then deploy_html w r
  else usage w 1 msg_mode.

(** The whole script, lines 115-232. *)
Definition pdeploy (w : World) (input : Getopt) : M Empty_set :=
  match input with
  | GetoptError msg => usage w 1 msg
  | GetoptOk opts args =>
      g ← parse_options w opts;
      r ← validate w g args;
      dispatch w r;;
      sys_exit 0
  end.

(** A run of the script from the empty trace: what happened, and how it
    ended. *)
Definition main (w : World) (input : Getopt) : list Event * Status :=
  match pdeploy w input [] with
  | (t, inl s) => (t, s)
  | (t, inr e) => match e with end
  end.

(** ** Reading a trace *)

(** The calls made into [DeploymentTools], in order. *)
Fixpoint invocations (t : list Event) : list Call :=
  match t with
  | [] => []
  | Invoke c :: r => c :: invocations r
  | _ :: r => invocations r
  end.

(** The single-platform build invocations, as (output path, platform). *)
Fixpoint builds (cs : list Call) : list (Filename.t * string) :=
  match cs with
  | [] => []
  | StandaloneBuild o p :: r => (o, p) :: builds r
  | InstallerBuild o p :: r => (o, p) :: builds r
  | _ :: r => builds r
  end.

(** What [print] wrote to standard output, one entry per statement. *)
Fixpoint printed (t : list Event) : list string :=
  match t with
  | [] => []
  | Print s :: r => s :: printed r
  | _ :: r => printed r
  end.

(** The files the run wrote, as (name, content): [cur] is the file that
    is open while the rest of the trace is read. *)
Fixpoint files_from (cur : option (string * string)) (t : list Event)
  : list (string * string) :=
  match t with
  | [] => option_list cur
  | FileOpen n :: r => option_list cur ++ files_from (Some (n, EmptyString)) r
  | FileWrite s :: r =>
      files_from (match cur with
                  | Some (n, c) => Some (n, c +:+ s)
                  | None => None
                  end) r
  | FileClose :: r => option_list cur ++ files_from None r
  | _ :: r => files_from cur r
  end.

Definition files (t : list Event) : list (string * string) := files_from None t.

(** A host on which everything succeeds: paths are taken as they are,
    every file exists and can be opened, every build returns [Success]. *)
Definition host (platform : string) : World :=
  {| prog := "pdeploy";
     fromOsSpecific := fun s => s;
     file_exists := fun _ => true;
     getPlatform := platform;
     can_open := fun _ => true;
     collaborator := fun _ _ => Returns Success |}.

(** The same host, where every single-platform build for a platform in
    [bad] reports a failure. *)
Definition failing_host (platform : string) (bad : list string) : World :=
  {| prog := "pdeploy";
     fromOsSpecific := fun s => s;
     file_exists := fun _ => true;
     getPlatform := platform;
     can_open := fun _ => true;
     collaborator := fun _ c =>
       match c with
       | StandaloneBuild _ p | InstallerBuild _ p =>
           if existsb (String.eqb p) bad
           then Returns (Failure "build failed") else Returns Success
       | _ => Returns Success
       end |}.

(** The calls the dispatch makes when no collaborator raises: the
    constructor, then the builds.  [suffix] is what the stand-alone file
    name gets after the short name. *)
Definition suffix (platform : string) : string :=
  if Py.startswith platform "win" then ".exe" else "".

Definition standalone_builds (w : World) (g : Globals) : list Call :=
  if currentPlatform g then
    [StandaloneBuild
       (Filename.join (outputDir g) (shortname g +:+ suffix (getPlatform w)))
       (getPlatform w)]
  else if Nat.eqb (length (platforms g)) 0 then [StandaloneBuildAll (outputDir g)]
  else map (fun p => StandaloneBuild
                       (Filename.join (outputDir g)
                          (p +:+ "/" +:+ shortname g +:+ suffix p)) p)
           (platforms g).

Definition installer_builds (w : World) (g : Globals) : list Call :=
  if currentPlatform g then [InstallerBuild (outputDir g) (getPlatform w)]
  else if Nat.eqb (length (platforms g)) 0 then [InstallerBuildAll (outputDir g)]
  else map (fun p => InstallerBuild
                       (Filename.join (outputDir g) (p +:+ "/")) p)
           (platforms g).

Definition plan (w : World) (r : Request) : list Call :=
  let g := vars r in
  if String.eqb (deploy_mode r) "standalone" then
    NewStandalone (appFilename r) (tokens g) :: standalone_builds w g
  else if String.eqb (deploy_mode r) "installer" then
    NewInstaller (shortname g) (fullname g) (appFilename r) (version g) (tokens g)
      :: installer_builds w g
  else [].


(** The events of html mode once the file is open. *)
Definition html_events (r : Request) : list Event :=
  [ FileOpen (shortname (vars r) +:+ ".html");
    FileWrite ("<html>" +:+ Py.nl);
    FileWrite ("  <head>" +:+ Py.nl);
    FileWrite ("    <title>" +:+ fullname (vars r) +:+ "</title>" +:+ Py.nl);
    FileWrite ("  </head>" +:+ Py.nl);
    FileWrite ("  <body>" +:+ Py.nl);
    FileWrite ("    <object data=" +:+ Py.dq
               +:+ Filename.getBasename (appFilename r) +:+ Py.dq
               +:+ " type=" +:+ Py.dq +:+ "application/x-panda3d" +:+ Py.dq
               +:+ "></object>" +:+ Py.nl);
    FileWrite ("  </body>" +:+ Py.nl);
    FileWrite ("</html>" +:+ Py.nl);
    FileClose ].

(** The short-name warning of lines 160-161, and the variables after the
    defaulting of lines 163-167. *)
Definition bad_shortname (s : string) : bool :=
  negb (String.eqb (Py.lower s) s) || Py.contains " " s.

Definition warning (g : Globals) : list Event :=
  if bad_shortname (shortname g) then [Print msg_shortname] else [].

Definition defaulted (app : Filename.t) (g : Globals) : Globals :=
  let g := if String.eqb (shortname g) ""
           then set_shortname (Filename.getBasenameWoExtension app) g
           else g in
  if String.eqb (fullname g) "" then set_fullname (shortname g) g else g.

(** The same world with other answers from the collaborators. *)
Definition with_collaborator (f : list Event -> Call -> Outcome) (w : World) : World :=
  mkWorld (prog w) (fromOsSpecific w) (file_exists w) (getPlatform w) (can_open w) f.

Definition raises (o : Outcome) : bool :=
  match o with
  | Raises => true
  | Returns _ => false
  end.

(** A computation that prints nothing on standard output. *)
Definition silent {A} (m : M A) : Prop :=
  forall t t' res, m t = (t', res) -> printed t' = printed t.

(** Whether an option pair is the option [name]. *)
Definition is_opt (name : string) (oa : string * string) : bool :=
  String.eqb (fst oa) name.

(** Whether a string has an upper-case letter. *)
Fixpoint has_upper (s : string) : bool :=
  match s with
  | EmptyString => false
  | String c r => Py.is_upper c || has_upper r
  end.

(** The option names the loop of lines 121-142 handles, which are the
    ones the option string given to [getopt] allows. *)
Definition known_options : list string :=
  ["-n"; "-N"; "-v"; "-o"; "-t"; "-P"; "-c"; "-l"; "-L"; "-h"].

(** A computation that ends in an exception of a collaborator only right
    after the call that raised it. *)
Definition stops_at_raise (w : World) {A} (m : M A) : Prop :=
  forall t t',
    m t = (t', inl (Uncaught BuilderError)) ->
    exists t0 c, t' = t0 ++ [Invoke c] /\ collaborator w t0 c = Raises.

(** The host of [host], where every single-platform build for a platform
    in [bad] raises. *)
Definition raising_host (platform : string) (bad : list string) : World :=
  {| prog := "pdeploy";
     fromOsSpecific := fun s => s;
     file_exists := fun _ => true;
     getPlatform := platform;
     can_open := fun _ => true;
     collaborator := fun _ c =>
       match c with
       | StandaloneBuild _ p | InstallerBuild _ p =>
           if existsb (String.eqb p) bad then Raises else Returns Success
       | _ => Returns Success
       end |}.


(** A trace in which every call to a collaborator returned. *)
Definition answered (w : World) (t : list Event) : Prop :=
  forall t0 c rest, t = t0 ++ Invoke c :: rest -> collaborator w t0 c <> Raises.

(** How a trace and the status it ended with fit together: a run that
    ends in a collaborator's exception has the raising call as its last
    event, after calls that all returned; any other run has only calls
    that returned. *)
Definition ends_well (w : World) (t : list Event) (s : Status) : Prop :=
  match s with
  | Uncaught BuilderError =>
      exists t0 c, t = t0 ++ [Invoke c] /\ collaborator w t0 c = Raises /\ answered w t0
  | _ => answered w t
  end.

(** A computation that goes on only after calls that returned. *)
Definition keeps_answered (w : World) {A} (m : M A) : Prop :=
  forall t t' res,
    m t = (t', res) ->
    answered w t ->
    match res with
    | inl s => ends_well w t' s
    | inr _ => answered w t'
    end.

(** ** Examples *)

Example lower_mixed : Py.lower "My Game_1.P3D" = "my game_1.p3d"%string.
Proof. reflexivity. Qed.

Example strip_both : Py.strip "  a b	 " = "a b"%string.
Proof. reflexivity. Qed.

Example split1_first_only : Py.split1 "=" "a=b=c" = ["a"; "b=c"]%string.
Proof. reflexivity. Qed.

Example split1_no_sep : Py.split1 "=" "width" = ["width"]%string.
Proof. reflexivity. Qed.

Example join_out : Filename.join "out" "win32/app.exe" = "out/win32/app.exe"%string.
Proof. reflexivity. Qed.

Example join_cwd : Filename.join "./" "app" = "./app"%string.
Proof. reflexivity. Qed.

Example extension_of_upper : Filename.getExtension "dist/app.v2.P3D" = "P3D"%string.
Proof. reflexivity. Qed.

Example basename_wo_extension : Filename.getBasenameWoExtension "dist/app.p3d" = "app"%string.
Proof. reflexivity. Qed.

Example run_two_P_options :
  main (host "linux_amd64")
       (GetoptOk [("-P", "win32"); ("-P", "linux_amd64"); ("-o", "out")]
                 ["app.p3d"; "standalone"])
  = ([Invoke (NewStandalone "app.p3d" ∅);
      SetBasename "app";
      Invoke (StandaloneBuild "out/win32/app.exe" "win32");
      Invoke (StandaloneBuild "out/linux_amd64/app" "linux_amd64")],
     Exit 0).
Proof. reflexivity. Qed.

Example run_help :
  main (host "linux_amd64") (GetoptOk [("-c", ""); ("-h", "")] ["app.p3d"; "standalone"])
  = ([PrintUsage "pdeploy"; PrintErr ""], Exit 0).
Proof. reflexivity. Qed.

Example run_bad_mode :
  main (host "linux_amd64") (GetoptOk [] ["app.p3d"; "zip"])
  = ([PrintUsage "pdeploy"; PrintErr "Invalid deployment mode!"], Exit 1).
Proof. reflexivity. Qed.

Example run_one_argument :
  main (host "linux_amd64") (GetoptOk [] ["app.p3d"])
  = ([PrintUsage "pdeploy"; PrintErr ""], Exit 1).
Proof. reflexivity. Qed.

Example run_all_platforms :
  main (host "linux_amd64") (GetoptOk [("-v", "1.0")] ["app.p3d"; "installer"])
  = ([Invoke (NewInstaller "app" "app" "app.p3d" "1.0" ∅);
      SetLicensename ""; SetLicensefile "";
      Invoke (InstallerBuildAll "./")],
     Exit 0).
Proof. reflexivity. Qed.

(** ** Running computations *)

Ltac unfold_monad :=
  unfold when, usage, emit, sys_exit, raise, mbind, M_bind, bind, mret, M_ret, ret in *.

Lemma bind_inr {A B} (m : M A) (k : A -> M B) t t' a :
  m t = (t', inr a) -> (m ≫= k) t = k a t'.
Proof. intros H. unfold_monad. now rewrite H. Qed.

Lemma bind_inl {A B} (m : M A) (k : A -> M B) t t' s :
  m t = (t', inl s) -> (m ≫= k) t = (t', inl s).
Proof. intros H. unfold_monad. now rewrite H. Qed.

Lemma invocations_app t1 t2 :
  invocations (t1 ++ t2) = invocations t1 ++ invocations t2.
Proof.
  induction t1 as [|e t1 IH]; simpl; [reflexivity|].
  destruct e; simpl; rewrite IH; reflexivity.
Qed.

Lemma printed_app t1 t2 : printed (t1 ++ t2) = printed t1 ++ printed t2.
Proof.
  induction t1 as [|e t1 IH]; simpl; [reflexivity|].
  destruct e; simpl; rewrite IH; reflexivity.
Qed.

(** ** Strings *)

Lemma append_empty_r (s : string) : s +:+ "" = s.
Proof.
  induction s as [|c s IH]; [reflexivity|].
  change (String c (s +:+ "") = String c s). now rewrite IH.
Qed.

Lemma append_assoc (a b c : string) : (a +:+ b) +:+ c = a +:+ b +:+ c.
Proof.
  induction a as [|x a IH]; [reflexivity|].
  change (String x ((a +:+ b) +:+ c) = String x (a +:+ b +:+ c)). now rewrite IH.
Qed.

Lemma append_cons (x : ascii) (a b : string) : String x a +:+ b = String x (a +:+ b).
Proof. reflexivity. Qed.

Lemma contains_app c (a b : string) :
  Py.contains c (a +:+ b) = Py.contains c a || Py.contains c b.
Proof.
  induction a as [|x a IH]; [reflexivity|].
  rewrite append_cons. simpl. rewrite IH. apply orb_assoc.
Qed.

Lemma partition_none c s : Py.contains c s = false <-> Py.partition c s = None.
Proof.
  induction s as [|x s IH]; simpl; [tauto|].
  destruct (Ascii.eqb x c); simpl; [split; discriminate|].
  rewrite IH. destruct (Py.partition c s) as [[h t]|]; split; congruence.
Qed.

(** Cutting at the first [c]: a head without [c], then anything. *)
Lemma partition_first c k v :
  Py.contains c k = false -> Py.partition c (k +:+ String c v) = Some (k, v).
Proof.
  induction k as [|x k IH]; intros H.
  - change (Py.partition c (String c v) = Some (EmptyString, v)).
    simpl. now rewrite Ascii.eqb_refl.
  - rewrite append_cons. simpl in *. apply orb_false_iff in H as [Hx Hk].
    rewrite Hx, (IH Hk). reflexivity.
Qed.

Lemma rpartition_none c s : Py.contains c s = false -> Py.rpartition c s = None.
Proof.
  induction s as [|x s IH]; simpl; [reflexivity|]. intros H.
  apply orb_false_iff in H as [Hx Hs]. now rewrite (IH Hs), Hx.
Qed.

(** Cutting at the last [c]: anything, then a tail without [c]. *)
Lemma rpartition_last c h t :
  Py.contains c t = false -> Py.rpartition c (h +:+ String c t) = Some (h, t).
Proof.
  intros H. induction h as [|x h IH].
  - change (Py.rpartition c (String c t) = Some (EmptyString, t)).
    simpl. now rewrite (rpartition_none _ _ H), Ascii.eqb_refl.
  - rewrite append_cons. simpl. now rewrite IH.
Qed.

Lemma lower_char_fixed c : Ascii.eqb (Py.lower_char c) c = negb (Py.is_upper c).
Proof.
  destruct c as [b0 b1 b2 b3 b4 b5 b6 b7].
  destruct b0, b1, b2, b3, b4, b5, b6, b7; reflexivity.
Qed.

(** [s.lower() != s] says that [s] has an upper-case letter. *)
Lemma lower_changes s : negb (String.eqb (Py.lower s) s) = has_upper s.
Proof.
  induction s as [|c s IH]; [reflexivity|].
  simpl. rewrite lower_char_fixed, <- IH.
  destruct (Py.is_upper c); simpl; [reflexivity|].
  reflexivity.
Qed.

Lemma bad_shortname_spec s : bad_shortname s = has_upper s || Py.contains " " s.
Proof. unfold bad_shortname. now rewrite lower_changes. Qed.

(** ** File names *)

Lemma ends_with_slash_split s :
  Filename.ends_with_slash s = true -> exists x, s = x +:+ "/".
Proof.
  induction s as [|c s IH]; [discriminate|].
  destruct s as [|d s].
  - simpl. intros H. apply Ascii.eqb_eq in H. subst c. exists EmptyString. reflexivity.
  - intros H. change (Filename.ends_with_slash (String d s) = true) in H.
    destruct (IH H) as [x E]. exists (String c x). rewrite append_cons, <- E. reflexivity.
Qed.

(** A name without [/] is the base name of any path that ends in
    [/name]. *)
Lemma getBasename_under x name :
  Py.contains "/" name = false ->
  x = EmptyString \/ (exists y, x = y +:+ "/") ->
  Filename.getBasename (x +:+ name) = name.
Proof.
  intros Hn [->|[y ->]]; unfold Filename.getBasename.
  - change (EmptyString +:+ name) with name. now rewrite (rpartition_none _ _ Hn).
  - rewrite append_assoc. change ("/" +:+ name) with (String "/" name).
    now rewrite (rpartition_last _ _ _ Hn).
Qed.

(** [Filename(dir, rest)] puts a directory prefix before [rest]. *)
Lemma join_shape dir rest :
  exists x, Filename.join dir rest = x +:+ rest
            /\ (x = EmptyString \/ exists y, x = y +:+ "/").
Proof.
  unfold Filename.join. destruct (String.eqb dir "").
  - exists EmptyString. auto.
  - destruct (Filename.ends_with_slash dir) eqn:E.
    + exists dir. split; [reflexivity|]. right. now apply ends_with_slash_split.
    + exists (dir +:+ "/"). rewrite append_assoc. split; [reflexivity|]. right. eauto.
Qed.

Lemma getBasename_join dir sub name :
  Py.contains "/" name = false ->
  sub = EmptyString \/ (exists p, sub = p +:+ "/") ->
  Filename.getBasename (Filename.join dir (sub +:+ name)) = name.
Proof.
  intros Hn Hsub. destruct (join_shape dir (sub +:+ name)) as (x & -> & Hx).
  rewrite <- append_assoc. apply getBasename_under; [exact Hn|].
  destruct Hsub as [->|[p ->]].
  - rewrite append_empty_r. exact Hx.
  - right. exists (x +:+ p). now rewrite append_assoc.
Qed.

(** ** The option loop *)

Section Options.

Variable w : World.

(** One option either updates the variables and leaves the trace alone,
    or raises, or is [-h]. *)
Lemma option_step_cases g opt arg t :
  (exists g', option_step w g (opt, arg) t = (t, inr g')
     /\ platforms g' = platforms g ++ (if String.eqb opt "-P" then [arg] else [])
     /\ currentPlatform g' = currentPlatform g || String.eqb opt "-c"
     /\ shortname g' = (if String.eqb opt "-n" then Py.strip arg else shortname g)
     /\ version g' = (if String.eqb opt "-v" then Py.strip arg else version g))
  \/ (exists e, option_step w g (opt, arg) t = (t, inl (Uncaught e)))
  \/ (opt = "-h"
      /\ option_step w g (opt, arg) t
         = (t ++ [PrintUsage (prog w); PrintErr ""], inl (Exit 0))).
Proof.
  unfold option_step.
  destruct (String.eqb opt "-n") eqn:En.
  { apply String.eqb_eq in En; subst opt. left. eexists. split; [reflexivity|].
    simpl. rewrite app_nil_r, orb_false_r. auto. }
  destruct (String.eqb opt "-N") eqn:EN.
  { apply String.eqb_eq in EN; subst opt. left. eexists. split; [reflexivity|].
    simpl. rewrite app_nil_r, orb_false_r. auto. }
  destruct (String.eqb opt "-v") eqn:Ev.
  { apply String.eqb_eq in Ev; subst opt. left. eexists. split; [reflexivity|].
    simpl. rewrite app_nil_r, orb_false_r. auto. }
  destruct (String.eqb opt "-o") eqn:Eo.
  { apply String.eqb_eq in Eo; subst opt. left. eexists. split; [reflexivity|].
    simpl. rewrite app_nil_r, orb_false_r. auto. }
  destruct (String.eqb opt "-t") eqn:Et.
  { apply String.eqb_eq in Et; subst opt.
    unfold Py.split1. destruct (Py.partition "=" (Py.strip arg)) as [[k v]|].
    - left. eexists. split; [reflexivity|].
      simpl. rewrite app_nil_r, orb_false_r. auto.
    - right; left. eexists. reflexivity. }
  destruct (String.eqb opt "-P") eqn:EP.
  { apply String.eqb_eq in EP; subst opt. left. eexists. split; [reflexivity|].
    simpl. rewrite orb_false_r. auto. }
  destruct (String.eqb opt "-c") eqn:Ec.
  { apply String.eqb_eq in Ec; subst opt. left. eexists. split; [reflexivity|].
    simpl. rewrite app_nil_r, orb_true_r. auto. }
  destruct (String.eqb opt "-l") eqn:El.
  { apply String.eqb_eq in El; subst opt. left. eexists. split; [reflexivity|].
    simpl. rewrite app_nil_r, orb_false_r. auto. }
  destruct (String.eqb opt "-L") eqn:EL.
  { apply String.eqb_eq in EL; subst opt. left. eexists. split; [reflexivity|].
    simpl. rewrite app_nil_r, orb_false_r. auto. }
  destruct (String.eqb opt "-h") eqn:Eh.
  { apply String.eqb_eq in Eh; subst opt. right; right. split; [reflexivity|].
    unfold_monad. simpl. rewrite <- app_assoc. reflexivity. }
  right; left. eexists. reflexivity.
Qed.

(** A loop that goes through leaves the trace as it was. *)
Lemma fold_options_trace opts : forall g t t' g',
  fold_each (option_step w) g opts t = (t', inr g') -> t' = t.
Proof.
  induction opts as [|[opt arg] opts IH]; intros g t t' g' H; simpl in H.
  - unfold_monad. congruence.
  - destruct (option_step_cases g opt arg t) as [(g1 & E & _)|[(e & E)|(_ & E)]].
    + rewrite (bind_inr _ _ _ _ _ E) in H. eauto.
    + rewrite (bind_inl _ _ _ _ _ E) in H. congruence.
    + rewrite (bind_inl _ _ _ _ _ E) in H. congruence.
Qed.

(** However the loop ends, it has called no collaborator and written no
    file: at most the usage text was printed. *)
Lemma fold_options_quiet opts : forall g t t' res,
  fold_each (option_step w) g opts t = (t', res) ->
  t' = t \/ (t' = t ++ [PrintUsage (prog w); PrintErr ""] /\ res = inl (Exit 0)).
Proof.
  induction opts as [|[opt arg] opts IH]; intros g t t' res H; simpl in H.
  - unfold_monad. left. congruence.
  - destruct (option_step_cases g opt arg t) as [(g1 & E & _)|[(e & E)|(_ & E)]].
    + rewrite (bind_inr _ _ _ _ _ E) in H. eauto.
    + rewrite (bind_inl _ _ _ _ _ E) in H. left. congruence.
    + rewrite (bind_inl _ _ _ _ _ E) in H. right. split; congruence.
Qed.

(** [platforms] collects the [-P] arguments as they are, in order. *)
Lemma fold_options_platforms opts : forall g t t' g',
  fold_each (option_step w) g opts t = (t', inr g') ->
  platforms g' = platforms g ++ map snd (List.filter (is_opt "-P") opts).
Proof.
  induction opts as [|[opt arg] opts IH]; intros g t t' g' H; simpl in H.
  - unfold_monad. simpl. rewrite app_nil_r. congruence.
  - destruct (option_step_cases g opt arg t) as [(g1 & E & HP & _)|[(e & E)|(_ & E)]].
    + rewrite (bind_inr _ _ _ _ _ E) in H. apply IH in H. rewrite H, HP.
      simpl. unfold is_opt at 2. simpl.
      destruct (String.eqb opt "-P"); simpl; rewrite <- app_assoc; reflexivity.
    + rewrite (bind_inl _ _ _ _ _ E) in H. congruence.
    + rewrite (bind_inl _ _ _ _ _ E) in H. congruence.
Qed.

(** [currentPlatform] is set as soon as one option is [-c]. *)
Lemma fold_options_currentPlatform opts : forall g t t' g',
  fold_each (option_step w) g opts t = (t', inr g') ->
  currentPlatform g' = currentPlatform g || existsb (is_opt "-c") opts.
Proof.
  induction opts as [|[opt arg] opts IH]; intros g t t' g' H; simpl in H.
  - unfold_monad. simpl. rewrite orb_false_r. congruence.
  - destruct (option_step_cases g opt arg t) as [(g1 & E & _ & HC & _)|[(e & E)|(_ & E)]].
    + rewrite (bind_inr _ _ _ _ _ E) in H. apply IH in H. rewrite H, HC.
      simpl. unfold is_opt at 2. simpl. rewrite orb_assoc. reflexivity.
    + rewrite (bind_inl _ _ _ _ _ E) in H. congruence.
    + rewrite (bind_inl _ _ _ _ _ E) in H. congruence.
Qed.

(** [shortname] is what it was, or the stripped argument of a [-n]. *)
Lemma fold_options_shortname opts : forall g t t' g',
  fold_each (option_step w) g opts t = (t', inr g') ->
  (shortname g' = shortname g /\ existsb (is_opt "-n") opts = false)
  \/ (exists a, In ("-n"%string, a) opts /\ shortname g' = Py.strip a).
Proof.
  induction opts as [|[opt arg] opts IH]; intros g t t' g' H; simpl in H.
  - unfold_monad. left. split; [congruence|reflexivity].
  - destruct (option_step_cases g opt arg t) as [(g1 & E & _ & _ & HS & _)|[(e & E)|(_ & E)]].
    + rewrite (bind_inr _ _ _ _ _ E) in H. apply IH in H.
      destruct H as [[H1 H2]|(a & Ha & H1)].
      * simpl. unfold is_opt at 1. simpl.
        destruct (String.eqb opt "-n") eqn:En.
        -- right. apply String.eqb_eq in En; subst opt.
           exists arg. split; [now left|congruence].
        -- left. split; [congruence|assumption].
      * right. exists a. split; [now right|assumption].
    + rewrite (bind_inl _ _ _ _ _ E) in H. congruence.
    + rewrite (bind_inl _ _ _ _ _ E) in H. congruence.
Qed.

End Options.

(** ** The checks *)

Section Checks.

Variable w : World.

(** Anything but two arguments ends in the usage text and exit code 1. *)
Lemma validate_usage g args t :
  length args <> 2%nat ->
  validate w g args t = (t ++ [PrintUsage (prog w); PrintErr ""], inl (Exit 1)).
Proof.
  intros H. unfold validate.
  assert (E : (match args with [] => true | _ => false end
               || negb (Nat.eqb (length args) 2)) = true).
  { destruct args as [|a [|b [|c args]]]; simpl in *; try reflexivity.
    exfalso. apply H. reflexivity. }
  rewrite E. unfold_monad. simpl. rewrite <- app_assoc. reflexivity.
Qed.

(** With two arguments the checks run in the order of the script; the
    first that fails prints its message and exits with code 1. *)
Lemma validate_two g a0 a1 t :
  validate w g [a0; a1] t =
  let app := fromOsSpecific w a0 in
  if negb (String.eqb (Py.lower (Filename.getExtension app)) "p3d") then
    (t ++ [Print msg_extension], inl (Exit 1))
  else if negb (file_exists w app) then
    (t ++ [Print msg_missing], inl (Exit 1))
  else if String.eqb (version g) "" && String.eqb (Py.lower a1) "installer" then
    (t ++ warning g ++ [Print msg_version], inl (Exit 1))
  else if negb (Filename.nonzero (outputDir g)) then
    (t ++ warning g ++ [Print msg_outputDir], inl (Exit 1))
  else
    (t ++ warning g, inr (mkRequest app (Py.lower a1) (defaulted app g))).
Proof.
  unfold validate, warning, defaulted, bad_shortname, index. unfold_monad.
  destruct g as [sn fn ver od tk pl cp ln lf]. simpl.
  destruct (String.eqb sn ""); simpl; destruct (String.eqb fn ""); simpl;
    destruct (negb (String.eqb (Py.lower (Filename.getExtension (fromOsSpecific w a0))) "p3d"));
    try reflexivity;
    destruct (negb (file_exists w (fromOsSpecific w a0))); try reflexivity;
    destruct (negb (String.eqb (Py.lower sn) sn) || Py.contains " " sn);
    destruct (String.eqb ver "" && String.eqb (Py.lower a1) "installer");
    destruct (negb (Filename.nonzero od)); simpl;
    rewrite ?app_nil_r, <- ?app_assoc; reflexivity.
Qed.

(** The checks call no collaborator and write no file, and when they
    stop the run the exit code is 1. *)
Lemma validate_quiet g args t t' res :
  validate w g args t = (t', res) ->
  exists ps, t' = t ++ map Print ps
             \/ (t' = t ++ [PrintUsage (prog w); PrintErr ""] /\ res = inl (Exit 1)).
Proof.
  intros H.
  destruct (Nat.eq_dec (length args) 2%nat) as [E|E].
  - destruct args as [|a0 [|a1 [|a2 args]]]; try discriminate E.
    rewrite validate_two in H. cbn zeta in H. unfold warning in H.
    destruct (negb (String.eqb (Py.lower (Filename.getExtension (fromOsSpecific w a0))) "p3d")).
    { exists [msg_extension]. left. simpl. congruence. }
    destruct (negb (file_exists w (fromOsSpecific w a0))).
    { exists [msg_missing]. left. simpl. congruence. }
    destruct (bad_shortname (shortname g));
      destruct (String.eqb (version g) "" && String.eqb (Py.lower a1) "installer");
      try destruct (negb (Filename.nonzero (outputDir g)));
      inversion H; subst;
      first [ exists [msg_shortname; msg_version]; left; reflexivity
            | exists [msg_shortname; msg_outputDir]; left; reflexivity
            | exists [msg_shortname]; left; reflexivity
            | exists [msg_version]; left; reflexivity
            | exists [msg_outputDir]; left; reflexivity
            | exists []; left; reflexivity ].
  - rewrite (validate_usage _ _ _ E) in H. exists []. right. split; congruence.
Qed.

Lemma validate_exit g args t t' s :
  validate w g args t = (t', inl s) -> s = Exit 1.
Proof.
  intros H.
  destruct (Nat.eq_dec (length args) 2%nat) as [E|E].
  - destruct args as [|a0 [|a1 [|a2 args]]]; try discriminate E.
    rewrite validate_two in H. cbn zeta in H.
    repeat match type of H with
           | (if ?c then _ else _) = _ => destruct c
           end; congruence.
  - rewrite (validate_usage _ _ _ E) in H. congruence.
Qed.

(** A request comes only out of two arguments that passed every check. *)
Lemma validate_ok g args t t' r :
  validate w g args t = (t', inr r) ->
  exists a0 a1,
    args = [a0; a1]
    /\ String.eqb (Py.lower (Filename.getExtension (fromOsSpecific w a0))) "p3d" = true
    /\ file_exists w (fromOsSpecific w a0) = true
    /\ (String.eqb (version g) "" && String.eqb (Py.lower a1) "installer" = false)
    /\ Filename.nonzero (outputDir g) = true
    /\ t' = t ++ warning g
    /\ r = mkRequest (fromOsSpecific w a0) (Py.lower a1) (defaulted (fromOsSpecific w a0) g).
Proof.
  intros H.
  destruct (Nat.eq_dec (length args) 2%nat) as [E|E].
  - destruct args as [|a0 [|a1 [|a2 args]]]; try discriminate E.
    exists a0, a1. rewrite validate_two in H. cbn zeta in H.
    destruct (String.eqb (Py.lower (Filename.getExtension (fromOsSpecific w a0))) "p3d");
      simpl in H; [|congruence].
    destruct (file_exists w (fromOsSpecific w a0)); simpl in H; [|congruence].
    destruct (String.eqb (version g) "" && String.eqb (Py.lower a1) "installer");
      [congruence|].
    destruct (Filename.nonzero (outputDir g)); simpl in H; [|congruence].
    inversion H; subst. repeat split; reflexivity.
  - rewrite (validate_usage _ _ _ E) in H. congruence.
Qed.

End Checks.

(** ** The dispatch *)

Section Dispatch.

Variable w : World.

Lemma invoke_cases c t :
  (exists r, invoke w c t = (t ++ [Invoke c], inr r))
  \/ invoke w c t = (t ++ [Invoke c], inl (Uncaught BuilderError)).
Proof.
  unfold invoke. destruct (collaborator w t c) as [r|]; [left; eauto|right; reflexivity].
Qed.

Ltac step_invoke H :=
  match type of H with
  | (invoke ?w0 ?c ≫= _) ?t = _ =>
      let r := fresh "r" in
      let E := fresh "E" in
      destruct (invoke_cases c t) as [[r E]|E];
      [ rewrite (bind_inr _ _ _ _ _ E) in H
      | rewrite (bind_inl _ _ _ _ _ E) in H ]
  end.

Ltac step_emit H :=
  match type of H with
  | (emit ?e ≫= _) ?t = _ =>
      rewrite (bind_inr (emit e) _ t (t ++ [e]) tt eq_refl) in H
  end.

(** A loop of builds makes them in order and stops at the first that
    raises. *)
Lemma for_each_invoke (mk : string -> Call) (body : string -> M unit) :
  (forall p t, body p t = (invoke w (mk p) ≫= fun _ => mret tt) t) ->
  forall l t t' res,
    for_each body l t = (t', res) ->
    (res = inr tt /\ invocations t' = invocations t ++ map mk l)
    \/ (res = inl (Uncaught BuilderError)
        /\ exists k, invocations t' = invocations t ++ take k (map mk l)).
Proof.
  intros Hbody. induction l as [|p l IH]; intros t t' res H; simpl in H.
  - left. unfold_monad. inversion H; subst. rewrite app_nil_r. auto.
  - unfold mbind at 1, M_bind at 1, bind at 1 in H. rewrite Hbody in H.
    destruct (invoke_cases (mk p) t) as [[r E]|E].
    + rewrite (bind_inr _ _ _ _ _ E) in H. unfold mret, M_ret, ret in H.
      apply IH in H.
      destruct H as [[-> H]|[-> [k H]]];
        rewrite invocations_app, <- app_assoc in H; simpl in H; [left; auto|right].
      split; [reflexivity|]. exists (S k). exact H.
    + rewrite (bind_inl _ _ _ _ _ E) in H. inversion H; subst. right.
      split; [reflexivity|]. exists 1%nat. rewrite invocations_app. reflexivity.
Qed.

Lemma deploy_standalone_cases r t t' res :
  String.eqb (deploy_mode r) "standalone" = true ->
  deploy_standalone w r t = (t', res) ->
  (res = inr tt /\ invocations t' = invocations t ++ plan w r)
  \/ (res = inl (Uncaught BuilderError)
      /\ exists k, invocations t' = invocations t ++ take k (plan w r)).
Proof.
  intros Hm H. unfold plan. rewrite Hm. cbn zeta.
  unfold deploy_standalone in H. cbn zeta in H.
  step_invoke H.
  2:{ inversion H; subst. right. split; [reflexivity|]. exists 1%nat.
      rewrite invocations_app. reflexivity. }
  step_emit H. unfold standalone_builds, suffix.
  assert (I0 : invocations ((t ++ [Invoke (NewStandalone (appFilename r) (tokens (vars r)))])
                            ++ [SetBasename (shortname (vars r))])
               = invocations t ++ [NewStandalone (appFilename r) (tokens (vars r))]).
  { rewrite !invocations_app. simpl. rewrite app_nil_r. reflexivity. }
  destruct (currentPlatform (vars r)).
  { destruct (Py.startswith (getPlatform w) "win"); step_invoke H;
      unfold_monad; inversion H; subst; rewrite invocations_app, I0, <- app_assoc;
      simpl; rewrite ?append_empty_r; [left|right|left|right];
      (split; [reflexivity|]); try reflexivity; exists 2%nat; reflexivity. }
  destruct (Nat.eqb (length (platforms (vars r))) 0).
  { step_invoke H; unfold_monad; inversion H; subst;
      rewrite invocations_app, I0, <- app_assoc; simpl; [left|right];
      (split; [reflexivity|]); try reflexivity; exists 2%nat; reflexivity. }
  eapply for_each_invoke
    with (mk := fun p => StandaloneBuild
                  (Filename.join (outputDir (vars r))
                     (p +:+ "/" +:+ shortname (vars r)
                        +:+ (if Py.startswith p "win" then ".exe" else ""))) p)
    in H.
  - destruct H as [[-> H]|[-> [k H]]];
      rewrite I0, <- app_assoc in H; simpl in H; [left; auto|right].
    split; [reflexivity|]. exists (S k). exact H.
  - intros p t0. cbn beta.
    destruct (Py.startswith p "win"); rewrite ?append_empty_r; reflexivity.
Qed.

Lemma deploy_installer_cases r t t' res :
  String.eqb (deploy_mode r) "standalone" = false ->
  String.eqb (deploy_mode r) "installer" = true ->
  deploy_installer w r t = (t', res) ->
  (res = inr tt /\ invocations t' = invocations t ++ plan w r)
  \/ (res = inl (Uncaught BuilderError)
      /\ exists k, invocations t' = invocations t ++ take k (plan w r)).
Proof.
  intros Hs Hm H. unfold plan. rewrite Hs, Hm. cbn zeta.
  unfold deploy_installer in H. cbn zeta in H.
  step_invoke H.
  2:{ inversion H; subst. right. split; [reflexivity|]. exists 1%nat.
      rewrite invocations_app. reflexivity. }
  do 2 step_emit H. unfold installer_builds.
  match type of H with
  | _ ?t0 = _ =>
      assert (I0 : invocations t0
                   = invocations t ++ [NewInstaller (shortname (vars r)) (fullname (vars r))
                                         (appFilename r) (version (vars r)) (tokens (vars r))])
  end.
  { rewrite !invocations_app. simpl. rewrite !app_nil_r. reflexivity. }
  destruct (currentPlatform (vars r)).
  { destruct (Py.startswith (getPlatform w) "win"); step_invoke H;
      unfold_monad; inversion H; subst; rewrite invocations_app, I0, <- app_assoc;
      simpl; [left|right|left|right]; (split; [reflexivity|]);
      try reflexivity; exists 2%nat; reflexivity. }
  destruct (Nat.eqb (length (platforms (vars r))) 0).
  { step_invoke H; unfold_monad; inversion H; subst;
      rewrite invocations_app, I0, <- app_assoc; simpl; [left|right];
      (split; [reflexivity|]); try reflexivity; exists 2%nat; reflexivity. }
  eapply for_each_invoke
    with (mk := fun p => InstallerBuild
                  (Filename.join (outputDir (vars r)) (p +:+ "/")) p)
    in H.
  - destruct H as [[-> H]|[-> [k H]]];
      rewrite I0, <- app_assoc in H; simpl in H; [left; auto|right].
    split; [reflexivity|]. exists (S k). exact H.
  - intros p t0. cbn beta. destruct (Py.startswith p "win"); reflexivity.
Qed.

Lemma deploy_html_run r t :
  deploy_html w r t =
  if can_open w (shortname (vars r) +:+ ".html")
  then (t ++ Print ("Creating " +:+ shortname (vars r) +:+ ".html...") :: html_events r,
        inr tt)
  else (t ++ [Print ("Creating " +:+ shortname (vars r) +:+ ".html...")],
        inl (Uncaught IOError)).
Proof.
  unfold deploy_html, html_events, fopen. unfold_monad. cbn zeta.
  destruct (can_open w (shortname (vars r) +:+ ".html")); [|reflexivity].
  rewrite <- !app_assoc. reflexivity.
Qed.

(** The three ways the dispatch can end: it completes after the planned
    calls, a collaborator or [open] raises part-way through the plan, or
    the mode is none of [DEPLOY_MODES] and the usage text is printed. *)
Lemma dispatch_cases r t t' res :
  dispatch w r t = (t', res) ->
  (In (deploy_mode r) DEPLOY_MODES
   /\ ((res = inr tt /\ invocations t' = invocations t ++ plan w r)
       \/ (exists e, res = inl (Uncaught e)
           /\ exists k, invocations t' = invocations t ++ take k (plan w r))))
  \/ (~ In (deploy_mode r) DEPLOY_MODES
      /\ res = inl (Exit 1)
      /\ t' = t ++ [PrintUsage (prog w); PrintErr msg_mode]).
Proof.
  unfold dispatch. intros H.
  destruct (String.eqb (deploy_mode r) "standalone") eqn:Es.
  { left. split; [left; symmetry; now apply String.eqb_eq|].
    destruct (deploy_standalone_cases _ _ _ _ Es H) as [?|[-> ?]]; eauto. }
  destruct (String.eqb (deploy_mode r) "installer") eqn:Ei.
  { left. split; [right; left; symmetry; now apply String.eqb_eq|].
    destruct (deploy_installer_cases _ _ _ _ Es Ei H) as [?|[-> ?]]; eauto. }
  destruct (String.eqb (deploy_mode r) "html") eqn:Eh.
  { left. split; [right; right; left; symmetry; now apply String.eqb_eq|].
    rewrite deploy_html_run in H. unfold plan. rewrite Es, Ei.
    destruct (can_open w _); inversion H; subst; rewrite invocations_app; simpl.
    - left. split; reflexivity.
    - right. exists IOError. split; [reflexivity|]. exists 0%nat. reflexivity. }
  right. apply String.eqb_neq in Es, Ei, Eh. split.
  { simpl. intros [E|[E|[E|[]]]]; congruence. }
  unfold_monad. inversion H; subst. rewrite <- app_assoc. auto.
Qed.

(** Once the options and the checks went through, the run is the
    dispatch followed by [sys.exit(0)]. *)
Lemma main_phases opts args g r t1 :
  parse_options w opts [] = ([], inr g) ->
  validate w g args [] = (t1, inr r) ->
  main w (GetoptOk opts args)
  = match dispatch w r t1 with
    | (t2, inl s) => (t2, s)
    | (t2, inr _) => (t2, Exit 0)
    end.
Proof.
  intros Hp Hv. unfold main, pdeploy.
  rewrite (bind_inr _ _ _ _ _ Hp), (bind_inr _ _ _ _ _ Hv).
  unfold_monad. destruct (dispatch w r t1) as [t2 [s|[]]]; reflexivity.
Qed.

(** When the options do not go through, the run ends there. *)
Lemma main_options_stop opts args t s :
  parse_options w opts [] = (t, inl s) -> main w (GetoptOk opts args) = (t, s).
Proof.
  intros Hp. unfold main, pdeploy. now rewrite (bind_inl _ _ _ _ _ Hp).
Qed.

(** When a check fails, the run ends there. *)
Lemma main_checks_stop opts args g t s :
  parse_options w opts [] = ([], inr g) ->
  validate w g args [] = (t, inl s) ->
  main w (GetoptOk opts args) = (t, s).
Proof.
  intros Hp Hv. unfold main, pdeploy.
  now rewrite (bind_inr _ _ _ _ _ Hp), (bind_inl _ _ _ _ _ Hv).
Qed.

End Dispatch.

(** ** What the collaborators return is never looked at *)

Section Results.

Variable w : World.
Variable f : list Event -> Call -> Outcome.
Hypothesis same_raises : forall t c, raises (f t c) = raises (collaborator w t c).

Lemma invoke_agree {A} c (k k' : M A) t :
  (forall t0, k t0 = k' t0) ->
  (invoke (with_collaborator f w) c ≫= fun _ => k) t = (invoke w c ≫= fun _ => k') t.
Proof.
  intros Hk. unfold invoke, with_collaborator. simpl. unfold_monad.
  specialize (same_raises t c).
  destruct (f t c), (collaborator w t c); simpl in same_raises;
    try discriminate; auto.
Qed.

Lemma emit_bind {A} e (k : M A) t : (emit e ≫= fun _ => k) t = k (t ++ [e]).
Proof. reflexivity. Qed.

Lemma for_each_ext {A} (b b' : A -> M unit) :
  (forall p t, b p t = b' p t) -> forall l t, for_each b l t = for_each b' l t.
Proof.
  intros Hb. induction l as [|p l IH]; intros t; simpl; [reflexivity|].
  unfold_monad. rewrite Hb. destruct (b' p t) as [t' [s|[]]]; auto.
Qed.

Lemma dispatch_agree r t :
  dispatch (with_collaborator f w) r t = dispatch w r t.
Proof.
  unfold dispatch.
  destruct (String.eqb (deploy_mode r) "standalone").
  { unfold deploy_standalone. cbn zeta. apply invoke_agree. intros t0.
    rewrite !emit_bind. change (getPlatform (with_collaborator f w)) with (getPlatform w).
    destruct (currentPlatform (vars r)).
    { destruct (Py.startswith (getPlatform w) "win"); now apply invoke_agree. }
    destruct (Nat.eqb (length (platforms (vars r))) 0); [now apply invoke_agree|].
    apply for_each_ext. intros p t1.
    destruct (Py.startswith p "win"); now apply invoke_agree. }
  destruct (String.eqb (deploy_mode r) "installer").
  { unfold deploy_installer. cbn zeta. apply invoke_agree. intros t0.
    rewrite !emit_bind. change (getPlatform (with_collaborator f w)) with (getPlatform w).
    destruct (currentPlatform (vars r)).
    { destruct (Py.startswith (getPlatform w) "win"); now apply invoke_agree. }
    destruct (Nat.eqb (length (platforms (vars r))) 0); [now apply invoke_agree|].
    apply for_each_ext. intros p t1.
    destruct (Py.startswith p "win"); now apply invoke_agree. }
  reflexivity.
Qed.

(** Two worlds that differ only in what the collaborators return give
    the same run: same trace, same exit status. *)
Lemma main_agree input :
  main (with_collaborator f w) input = main w input.
Proof.
  destruct input as [msg|opts args]; [reflexivity|].
  unfold main, pdeploy, mbind, M_bind, bind.
  change (parse_options (with_collaborator f w)) with (parse_options w).
  destruct (parse_options w opts []) as [t0 [s|g]]; [reflexivity|].
  change (validate (with_collaborator f w)) with (validate w).
  destruct (validate w g args t0) as [t1 [s|r]]; [reflexivity|].
  rewrite dispatch_agree. reflexivity.
Qed.

End Results.

(** ** Runs and plans *)

Section Runs.

Variable w : World.

Lemma invocations_warning g : invocations (warning g) = [].
Proof. unfold warning. destruct (bad_shortname (shortname g)); reflexivity. Qed.

Lemma defaulted_fields app g :
  version (defaulted app g) = version g
  /\ outputDir (defaulted app g) = outputDir g
  /\ tokens (defaulted app g) = tokens g
  /\ platforms (defaulted app g) = platforms g
  /\ currentPlatform (defaulted app g) = currentPlatform g.
Proof.
  unfold defaulted. destruct g as [sn fn ver od tk pl cp ln lf]. simpl.
  destruct (String.eqb sn ""); simpl; destruct (String.eqb fn ""); simpl; auto.
Qed.

(** The request carries the platform choice of the options. *)
Lemma request_platforms opts args g r t1 :
  parse_options w opts [] = ([], inr g) ->
  validate w g args [] = (t1, inr r) ->
  platforms (vars r) = map snd (List.filter (is_opt "-P") opts)
  /\ currentPlatform (vars r) = existsb (is_opt "-c") opts.
Proof.
  intros Hp Hv.
  destruct (validate_ok _ _ _ _ _ _ Hv) as (a0 & a1 & _ & _ & _ & _ & _ & _ & ->).
  simpl. destruct (defaulted_fields (fromOsSpecific w a0) g) as (_ & _ & _ & -> & ->).
  split.
  - apply (fold_options_platforms w) in Hp. exact Hp.
  - apply (fold_options_currentPlatform w) in Hp. exact Hp.
Qed.

(** However a run ends, the calls it made are the beginning of the plan. *)
Lemma run_follows_plan opts args g r t1 t s :
  parse_options w opts [] = ([], inr g) ->
  validate w g args [] = (t1, inr r) ->
  main w (GetoptOk opts args) = (t, s) ->
  exists k, invocations t = take k (plan w r).
Proof.
  intros Hp Hv Hm. rewrite (main_phases _ _ _ _ _ _ Hp Hv) in Hm.
  destruct (validate_ok _ _ _ _ _ _ Hv) as (a0 & a1 & _ & _ & _ & _ & _ & Ht & _).
  simpl in Ht. subst t1.
  destruct (dispatch w r (warning g)) as [t2 res] eqn:Hd.
  assert (t2 = t) by (destruct res; congruence). subst t2.
  destruct (dispatch_cases _ _ _ _ _ Hd) as [[_ [[_ H]|(e & _ & k & H)]]|(_ & _ & H)];
    rewrite ?invocations_warning in H; simpl in H.
  - exists (length (plan w r)). rewrite H. symmetry. apply firstn_all.
  - exists k. exact H.
  - exists 0%nat. rewrite H, invocations_app, invocations_warning. reflexivity.
Qed.

(** A run in one of the three modes that ends by [sys.exit] made the
    whole plan and exits with code 0. *)
Lemma completed_run opts args g r t1 t code :
  parse_options w opts [] = ([], inr g) ->
  validate w g args [] = (t1, inr r) ->
  In (deploy_mode r) DEPLOY_MODES ->
  main w (GetoptOk opts args) = (t, Exit code) ->
  code = 0 /\ invocations t = plan w r.
Proof.
  intros Hp Hv Hin Hm. rewrite (main_phases _ _ _ _ _ _ Hp Hv) in Hm.
  destruct (validate_ok _ _ _ _ _ _ Hv) as (a0 & a1 & _ & _ & _ & _ & _ & Ht & _).
  simpl in Ht. subst t1.
  destruct (dispatch w r (warning g)) as [t2 res] eqn:Hd.
  destruct (dispatch_cases _ _ _ _ _ Hd) as [[_ [[-> H]|(e & -> & _)]]|(Hn & _)].
  - rewrite invocations_warning in H. simpl in H. inversion Hm; subst. auto.
  - discriminate Hm.
  - contradiction.
Qed.

Lemma builds_standalone (path : string -> Filename.t) ps :
  builds (map (fun p => StandaloneBuild (path p) p) ps) = map (fun p => (path p, p)) ps.
Proof. induction ps as [|p ps IH]; simpl; [reflexivity|]. now rewrite IH. Qed.

Lemma builds_installer (path : string -> Filename.t) ps :
  builds (map (fun p => InstallerBuild (path p) p) ps) = map (fun p => (path p, p)) ps.
Proof. induction ps as [|p ps IH]; simpl; [reflexivity|]. now rewrite IH. Qed.

Lemma builds_take (P : Filename.t * string -> Prop) cs :
  Forall P (builds cs) -> forall k, Forall P (builds (take k cs)).
Proof.
  induction cs as [|c cs IH]; intros H k; destruct k; simpl; auto.
  destruct c; simpl in *; auto; inversion H; subst; constructor; auto.
Qed.

End Runs.

(** ** Platform lists and the exit status *)

(** C1 (the code departs from its usage text).  The usage text says that
    [-P] takes a comma-separated list of platforms, and the spec expects
    [-P win32,linux_amd64 -o out] on [app.p3d] in standalone mode to
    give two builds, [out/win32/app.exe] and [out/linux_amd64/app].
    Line 133 appends the argument as it is, so the script makes one
    build, for a platform called [win32,linux_amd64]. *)
Theorem comma_separated_platforms_are_one_platform :
  let run := main (host "linux_amd64")
                  (GetoptOk [("-P", "win32,linux_amd64"); ("-o", "out")]
                            ["app.p3d"; "standalone"]) in
  run = ([Invoke (NewStandalone "app.p3d" ∅);
          SetBasename "app";
          Invoke (StandaloneBuild "out/win32,linux_amd64/app.exe" "win32,linux_amd64")],
         Exit 0)
  /\ builds (invocations (fst run))
     <> [("out/win32/app.exe", "win32"); ("out/linux_amd64/app", "linux_amd64")]%string.
Proof. split; [reflexivity|]. vm_compute. discriminate. Qed.

(** C2.  Whatever the mode and whatever the collaborators return, a run
    whose dispatch completes (no collaborator and no [open] raised) ends
    with exit code 0: the values returned by the builds are dropped, so
    a world that differs only in them gives the same run. *)
Theorem exit_code_ignores_build_results w opts args g r t1 t2 :
  parse_options w opts [] = ([], inr g) ->
  validate w g args [] = (t1, inr r) ->
  dispatch w r t1 = (t2, inr tt) ->
  main w (GetoptOk opts args) = (t2, Exit 0)
  /\ In (deploy_mode r) DEPLOY_MODES
  /\ forall f,
       (forall t c, raises (f t c) = raises (collaborator w t c)) ->
       main (with_collaborator f w) (GetoptOk opts args) = (t2, Exit 0).
Proof.
  intros Hp Hv Hd.
  assert (Hm : main w (GetoptOk opts args) = (t2, Exit 0)).
  { rewrite (main_phases _ _ _ _ _ _ Hp Hv), Hd. reflexivity. }
  split; [exact Hm|]. split.
  - destruct (dispatch_cases _ _ _ _ _ Hd) as [[Hin _]|(_ & E & _)];
      [exact Hin|discriminate E].
  - intros f Hf. rewrite (main_agree w f Hf). exact Hm.
Qed.

Lemma exit_code_ignores_build_results_witness :
  collaborator (failing_host "linux_amd64" ["win32"%string])
               [Invoke (NewStandalone "app.p3d" ∅); SetBasename "app"]
               (StandaloneBuild "out/win32/app.exe" "win32")
  = Returns (Failure "build failed")
  /\ main (failing_host "linux_amd64" ["win32"%string])
          (GetoptOk [("-P", "win32"); ("-P", "linux_amd64"); ("-o", "out")]%string
                    ["app.p3d"; "standalone"]%string)
     = ([Invoke (NewStandalone "app.p3d" ∅);
         SetBasename "app";
         Invoke (StandaloneBuild "out/win32/app.exe" "win32");
         Invoke (StandaloneBuild "out/linux_amd64/app" "linux_amd64")],
        Exit 0)
  /\ In "standalone"%string DEPLOY_MODES
  /\ forall f,
       (forall t0 c,
          raises (f t0 c)
          = raises (collaborator (failing_host "linux_amd64" ["win32"%string]) t0 c)) ->
       main (with_collaborator f (failing_host "linux_amd64" ["win32"%string]))
            (GetoptOk [("-P", "win32"); ("-P", "linux_amd64"); ("-o", "out")]%string
                      ["app.p3d"; "standalone"]%string)
       = ([Invoke (NewStandalone "app.p3d" ∅);
           SetBasename "app";
           Invoke (StandaloneBuild "out/win32/app.exe" "win32");
           Invoke (StandaloneBuild "out/linux_amd64/app" "linux_amd64")],
          Exit 0).
Proof.
  split; [reflexivity|].
  apply (exit_code_ignores_build_results
           (failing_host "linux_amd64" ["win32"%string])
           [("-P", "win32"); ("-P", "linux_amd64"); ("-o", "out")]%string
           ["app.p3d"; "standalone"]%string
           (mkGlobals "" "" "" "out" ∅ ["win32"; "linux_amd64"]%string false "" "")
           (mkRequest "app.p3d" "standalone"
              (mkGlobals "app" "app" "" "out" ∅ ["win32"; "linux_amd64"]%string
                         false "" ""))
           []);
    reflexivity.
Defined.

(** With a single explicit platform the artifact is not placed directly
    under the output directory: [-P win32 -o out] builds
    [out/win32/app.exe], not [out/app.exe]. *)
Lemma single_explicit_platform_is_nested :
  builds (invocations (fst (main (host "linux_amd64")
                                 (GetoptOk [("-P", "win32"); ("-o", "out")]%string
                                           ["app.p3d"; "standalone"]%string))))
  = [("out/win32/app.exe", "win32")]%string
  /\ builds (invocations (fst (main (host "linux_amd64")
                                    (GetoptOk [("-P", "win32"); ("-o", "out")]%string
                                              ["app.p3d"; "standalone"]%string))))
     <> [("out/app.exe", "win32")]%string.
Proof. split; [reflexivity|]. vm_compute. discriminate. Qed.

(** C3, as amended.  In a run that completes, without [-c] every
    platform named by a [-P] option, be there one or several, is built
    under a directory of the output directory named for it: the
    stand-alone file at [outputDir/platform/shortname(.exe)], the
    installer into [outputDir/platform/].  With [-c] the single build
    goes directly under the output directory: the stand-alone file at
    [outputDir/shortname(.exe)], the installer into [outputDir]. *)
Theorem explicit_platforms_are_nested w opts args g r t1 t :
  parse_options w opts [] = ([], inr g) ->
  validate w g args [] = (t1, inr r) ->
  main w (GetoptOk opts args) = (t, Exit 0) ->
  let od := outputDir (vars r) in
  let sn := shortname (vars r) in
  let ps := map snd (List.filter (is_opt "-P") opts) in
  (existsb (is_opt "-c") opts = false ->
   (deploy_mode r = "standalone"%string ->
    builds (invocations t)
    = map (fun p => (Filename.join od (p +:+ "/" +:+ sn +:+ suffix p), p)) ps)
   /\ (deploy_mode r = "installer"%string ->
       builds (invocations t) = map (fun p => (Filename.join od (p +:+ "/"), p)) ps))
  /\ (existsb (is_opt "-c") opts = true ->
      (deploy_mode r = "standalone"%string ->
       builds (invocations t)
       = [(Filename.join od (sn +:+ suffix (getPlatform w)), getPlatform w)])
      /\ (deploy_mode r = "installer"%string ->
          builds (invocations t) = [(od, getPlatform w)])).
Proof.
  intros Hp Hv Hm od sn ps.
  destruct (request_platforms _ _ _ _ _ _ Hp Hv) as [HP HC].
  assert (Hplan : forall m, In m DEPLOY_MODES -> deploy_mode r = m ->
                            invocations t = plan w r).
  { intros m Hin E. rewrite <- E in Hin.
    apply (completed_run _ _ _ _ _ _ _ _ Hp Hv Hin Hm). }
  split; intros Hc; rewrite Hc in HC; (split; intros E).
  - rewrite (Hplan _ (or_introl eq_refl) E). unfold plan, standalone_builds.
    rewrite E, HC, HP. fold ps. simpl.
    destruct ps as [|p ps']; [reflexivity|].
    change (Nat.eqb (length (p :: ps')) 0) with false. cbn iota.
    apply (builds_standalone
             (fun p => Filename.join (outputDir (vars r))
                         (p +:+ "/" +:+ shortname (vars r) +:+ suffix p))).
  - rewrite (Hplan _ (or_intror (or_introl eq_refl)) E). unfold plan, installer_builds.
    rewrite E, HC, HP. fold ps. simpl.
    destruct ps as [|p ps']; [reflexivity|].
    change (Nat.eqb (length (p :: ps')) 0) with false. cbn iota.
    apply (builds_installer
             (fun p => Filename.join (outputDir (vars r)) (p +:+ "/"))).
  - rewrite (Hplan _ (or_introl eq_refl) E). unfold plan, standalone_builds.
    rewrite E, HC. reflexivity.
  - rewrite (Hplan _ (or_intror (or_introl eq_refl)) E). unfold plan, installer_builds.
    rewrite E, HC. reflexivity.
Qed.

Lemma explicit_platforms_are_nested_witness :
  main (host "linux_amd64")
       (GetoptOk [("-P", "win32"); ("-o", "out"); ("-v", "1.0")]%string
                 ["app.p3d"; "installer"]%string)
  = ([Invoke (NewInstaller "app" "app" "app.p3d" "1.0" ∅);
      SetLicensename ""; SetLicensefile "";
      Invoke (InstallerBuild "out/win32/" "win32")],
     Exit 0)
  /\ builds (invocations
               [Invoke (NewInstaller "app" "app" "app.p3d" "1.0" ∅);
                SetLicensename ""; SetLicensefile "";
                Invoke (InstallerBuild "out/win32/" "win32")])
     = [("out/win32/", "win32")]%string.
Proof.
  split; [reflexivity|].
  exact (proj2
           (proj1
              (explicit_platforms_are_nested
                 (host "linux_amd64")
                 [("-P", "win32"); ("-o", "out"); ("-v", "1.0")]%string
                 ["app.p3d"; "installer"]%string
                 (mkGlobals "" "" "1.0" "out" ∅ ["win32"%string] false "" "")
                 (mkRequest "app.p3d" "installer"
                    (mkGlobals "app" "app" "1.0" "out" ∅ ["win32"%string] false "" ""))
                 []
                 [Invoke (NewInstaller "app" "app" "app.p3d" "1.0" ∅);
                  SetLicensename ""; SetLicensefile "";
                  Invoke (InstallerBuild "out/win32/" "win32")]
                 eq_refl eq_refl eq_refl)
              eq_refl)
           eq_refl).
Defined.

(** C4.  With [-c], however many [-P] options are given as well, a run
    of a builder mode that completes makes exactly one build, for the
    platform [PandaSystem.getPlatform()] reports, and its output has no
    per-platform directory: the stand-alone file is
    [outputDir/shortname(.exe)], the installer goes into [outputDir]. *)
Theorem current_platform_only w opts args g r t1 t :
  parse_options w opts [] = ([], inr g) ->
  validate w g args [] = (t1, inr r) ->
  existsb (is_opt "-c") opts = true ->
  main w (GetoptOk opts args) = (t, Exit 0) ->
  (deploy_mode r = "standalone"%string ->
   invocations t
   = [NewStandalone (appFilename r) (tokens (vars r));
      StandaloneBuild
        (Filename.join (outputDir (vars r))
           (shortname (vars r) +:+ suffix (getPlatform w)))
        (getPlatform w)])
  /\ (deploy_mode r = "installer"%string ->
      invocations t
      = [NewInstaller (shortname (vars r)) (fullname (vars r)) (appFilename r)
           (version (vars r)) (tokens (vars r));
         InstallerBuild (outputDir (vars r)) (getPlatform w)]).
Proof.
  intros Hp Hv Hc Hm.
  destruct (request_platforms _ _ _ _ _ _ Hp Hv) as [_ HC]. rewrite Hc in HC.
  split; intros E.
  - assert (Hin : In (deploy_mode r) DEPLOY_MODES) by (rewrite E; now left).
    destruct (completed_run _ _ _ _ _ _ _ _ Hp Hv Hin Hm) as [_ ->].
    unfold plan, standalone_builds. rewrite E, HC. reflexivity.
  - assert (Hin : In (deploy_mode r) DEPLOY_MODES) by (rewrite E; right; now left).
    destruct (completed_run _ _ _ _ _ _ _ _ Hp Hv Hin Hm) as [_ ->].
    unfold plan, installer_builds. rewrite E, HC. reflexivity.
Qed.

Lemma current_platform_only_witness :
  main (host "win32")
       (GetoptOk [("-P", "osx_ppc"); ("-c", ""); ("-P", "linux_amd64"); ("-o", "out")]%string
                 ["app.p3d"; "standalone"]%string)
  = ([Invoke (NewStandalone "app.p3d" ∅);
      SetBasename "app";
      Invoke (StandaloneBuild "out/app.exe" "win32")],
     Exit 0)
  /\ invocations [Invoke (NewStandalone "app.p3d" ∅);
                  SetBasename "app";
                  Invoke (StandaloneBuild "out/app.exe" "win32")]
     = [NewStandalone "app.p3d" ∅; StandaloneBuild "out/app.exe" "win32"].
Proof.
  split; [reflexivity|].
  exact (proj1
           (current_platform_only
              (host "win32")
              [("-P", "osx_ppc"); ("-c", ""); ("-P", "linux_amd64"); ("-o", "out")]%string
              ["app.p3d"; "standalone"]%string
              (mkGlobals "" "" "" "out" ∅ ["osx_ppc"; "linux_amd64"]%string true "" "")
              (mkRequest "app.p3d" "standalone"
                 (mkGlobals "app" "app" "" "out" ∅ ["osx_ppc"; "linux_amd64"]%string
                            true "" ""))
              []
              [Invoke (NewStandalone "app.p3d" ∅);
               SetBasename "app";
               Invoke (StandaloneBuild "out/app.exe" "win32")]
              eq_refl eq_refl eq_refl eq_refl)
           eq_refl).
Defined.

(** ** Output names *)

(** C5.  In standalone mode every single-platform build, from [-c] or
    from the explicit list, and whether or not the run goes on after it,
    gets the output [outputDir/shortname] or
    [outputDir/platform/shortname], with [.exe] appended when the
    platform identifier starts with [win] and nothing appended when it
    does not; for a short name without [/] that is the file name of the
    output path. *)
Theorem exe_suffix_iff_windows w opts args g r t1 t s :
  parse_options w opts [] = ([], inr g) ->
  validate w g args [] = (t1, inr r) ->
  deploy_mode r = "standalone"%string ->
  main w (GetoptOk opts args) = (t, s) ->
  Forall (fun op =>
            let name := if Py.startswith (snd op) "win"
                        then shortname (vars r) +:+ ".exe"
                        else shortname (vars r) in
            (exists sub,
                (sub = EmptyString \/ sub = snd op +:+ "/")
                /\ fst op = Filename.join (outputDir (vars r)) (sub +:+ name))
            /\ (Py.contains "/" (shortname (vars r)) = false ->
                Filename.getBasename (fst op) = name))
         (builds (invocations t)).
Proof.
  intros Hp Hv Hmode Hm.
  destruct (run_follows_plan _ _ _ _ _ _ _ _ Hp Hv Hm) as [k ->].
  apply builds_take. unfold plan. rewrite Hmode. simpl.
  assert (Hname : forall p,
             shortname (vars r) +:+ suffix p
             = if Py.startswith p "win" then shortname (vars r) +:+ ".exe"
               else shortname (vars r)).
  { intros p. unfold suffix. destruct (Py.startswith p "win");
      [reflexivity|apply append_empty_r]. }
  assert (Hslash : forall p,
             Py.contains "/" (shortname (vars r)) = false ->
             Py.contains "/" (shortname (vars r) +:+ suffix p) = false).
  { intros p H. rewrite contains_app, H. unfold suffix.
    destruct (Py.startswith p "win"); reflexivity. }
  unfold standalone_builds. destruct (currentPlatform (vars r)).
  { constructor; [|constructor]. cbn [fst snd]. cbn zeta. rewrite <- Hname. split.
    - exists EmptyString. split; [now left|reflexivity].
    - intros H. apply (getBasename_join _ EmptyString); [now apply Hslash|now left]. }
  destruct (Nat.eqb (length (platforms (vars r))) 0); [constructor|].
  rewrite (builds_standalone
             (fun p => Filename.join (outputDir (vars r))
                         (p +:+ "/" +:+ shortname (vars r) +:+ suffix p))).
  induction (platforms (vars r)) as [|p ps IH]; simpl; constructor; [|exact IH].
  cbn [fst snd]. cbn zeta. rewrite <- Hname. split.
  - exists (p +:+ "/"). split; [now right|]. now rewrite append_assoc.
  - intros H. rewrite <- (append_assoc p "/").
    apply getBasename_join; [now apply Hslash|right; eauto].
Qed.

Lemma exe_suffix_iff_windows_witness :
  main (host "linux_amd64")
       (GetoptOk [("-P", "win32"); ("-P", "linux_amd64"); ("-o", "out")]%string
                 ["app.p3d"; "standalone"]%string)
  = ([Invoke (NewStandalone "app.p3d" ∅);
      SetBasename "app";
      Invoke (StandaloneBuild "out/win32/app.exe" "win32");
      Invoke (StandaloneBuild "out/linux_amd64/app" "linux_amd64")],
     Exit 0)
  /\ Filename.getBasename "out/win32/app.exe" = "app.exe"%string
  /\ Filename.getBasename "out/linux_amd64/app" = "app"%string.
Proof.
  split; [reflexivity|].
  pose proof (exe_suffix_iff_windows
                (host "linux_amd64")
                [("-P", "win32"); ("-P", "linux_amd64"); ("-o", "out")]%string
                ["app.p3d"; "standalone"]%string
                (mkGlobals "" "" "" "out" ∅ ["win32"; "linux_amd64"]%string false "" "")
                (mkRequest "app.p3d" "standalone"
                   (mkGlobals "app" "app" "" "out" ∅ ["win32"; "linux_amd64"]%string
                              false "" ""))
                []
                [Invoke (NewStandalone "app.p3d" ∅);
                 SetBasename "app";
                 Invoke (StandaloneBuild "out/win32/app.exe" "win32");
                 Invoke (StandaloneBuild "out/linux_amd64/app" "linux_amd64")]
                (Exit 0) eq_refl eq_refl eq_refl eq_refl) as H.
  simpl in H. split.
  - exact (proj2 (Forall_inv H) eq_refl).
  - exact (proj2 (Forall_inv (Forall_inv_tail H)) eq_refl).
Defined.

(** ** Files and printed lines *)

Lemma files_from_prints cur ps t :
  files_from cur (map Print ps ++ t) = files_from cur t.
Proof. induction ps as [|p ps IH]; [reflexivity|exact IH]. Qed.

Lemma warning_prints g : exists ps, warning g = map Print ps.
Proof.
  unfold warning. destruct (bad_shortname (shortname g));
    [exists [msg_shortname]|exists []]; reflexivity.
Qed.

(** ** What a run prints *)

Section Printing.

Variable w : World.

Lemma silent_ret {A} (a : A) : silent (mret a : M A).
Proof. intros t t' res H. unfold_monad. congruence. Qed.

Lemma silent_bind {A B} (m : M A) (k : A -> M B) :
  silent m -> (forall a, silent (k a)) -> silent (m ≫= k).
Proof.
  intros Hm Hk t t' res H. unfold mbind, M_bind, bind in H.
  destruct (m t) as [t0 [s|a]] eqn:E.
  - inversion H; subst. eapply Hm; eauto.
  - apply Hk in H. rewrite H. eapply Hm; eauto.
Qed.

Lemma silent_invoke c : silent (invoke w c).
Proof.
  intros t t' res H.
  destruct (invoke_cases w c t) as [[r E]|E]; rewrite E in H; inversion H; subst;
    rewrite printed_app; simpl; apply app_nil_r.
Qed.

Lemma silent_emit e :
  match e with Print _ => False | _ => True end -> silent (emit e).
Proof.
  intros He t t' res H. unfold emit in H. inversion H; subst.
  rewrite printed_app. destruct e; try contradiction; simpl; apply app_nil_r.
Qed.

Lemma silent_for_each {A} (body : A -> M unit) l :
  (forall x, silent (body x)) -> silent (for_each body l).
Proof.
  intros Hb. induction l as [|x l IH]; simpl.
  - apply silent_ret.
  - apply silent_bind; [apply Hb|intros _; exact IH].
Qed.

Lemma silent_usage {A} c msg : silent (usage w c msg : M A).
Proof.
  intros t t' res H. unfold_monad. inversion H; subst.
  rewrite !printed_app. simpl. now rewrite !app_nil_r.
Qed.

Ltac silence :=
  repeat first
    [ apply silent_bind; [|intros ?]
    | apply silent_invoke
    | apply silent_ret
    | apply silent_emit; exact I
    | apply silent_for_each; intros ?
    | match goal with |- silent (if ?c then _ else _) => destruct c end ].

Lemma silent_standalone r : silent (deploy_standalone w r).
Proof. unfold deploy_standalone. cbn zeta. silence. Qed.

Lemma silent_installer r : silent (deploy_installer w r).
Proof. unfold deploy_installer. cbn zeta. silence. Qed.

(** The dispatch prints one line at most, the one of html mode. *)
Lemma dispatch_printed r t t' res :
  dispatch w r t = (t', res) ->
  printed t' = printed t
  \/ printed t' = printed t ++ ["Creating " +:+ shortname (vars r) +:+ ".html..."].
Proof.
  unfold dispatch. intros H.
  destruct (String.eqb (deploy_mode r) "standalone");
    [left; eapply silent_standalone; eauto|].
  destruct (String.eqb (deploy_mode r) "installer");
    [left; eapply silent_installer; eauto|].
  destruct (String.eqb (deploy_mode r) "html");
    [|left; eapply (silent_usage (A := unit)); eauto].
  right. rewrite deploy_html_run in H.
  destruct (can_open w _); inversion H; subst; rewrite printed_app; reflexivity.
Qed.

Lemma msg_shortname_distinct sn :
  msg_shortname <> msg_extension /\ msg_shortname <> msg_missing
  /\ msg_shortname <> msg_version /\ msg_shortname <> msg_outputDir
  /\ msg_shortname <> "Creating " +:+ sn +:+ ".html...".
Proof. repeat split; intros H; vm_compute in H; discriminate H. Qed.

(** Everything a run with two arguments prints, check by check. *)
Lemma main_printed opts g a0 a1 t s :
  parse_options w opts [] = ([], inr g) ->
  main w (GetoptOk opts [a0; a1]) = (t, s) ->
  if negb (String.eqb (Py.lower (Filename.getExtension (fromOsSpecific w a0))) "p3d")
  then printed t = [msg_extension]
  else if negb (file_exists w (fromOsSpecific w a0))
  then printed t = [msg_missing]
  else exists rest, printed t = printed (warning g) ++ rest /\ ~ In msg_shortname rest.
Proof.
  intros Hp Hm.
  destruct (msg_shortname_distinct
              (shortname (defaulted (fromOsSpecific w a0) g)))
    as (D1 & D2 & D3 & D4 & D5).
  pose proof (validate_two w g a0 a1 []) as Hv. cbn zeta in Hv.
  destruct (negb (String.eqb (Py.lower (Filename.getExtension (fromOsSpecific w a0))) "p3d")).
  { rewrite (main_checks_stop _ _ _ _ _ _ Hp Hv) in Hm. inversion Hm; subst. reflexivity. }
  destruct (negb (file_exists w (fromOsSpecific w a0))).
  { rewrite (main_checks_stop _ _ _ _ _ _ Hp Hv) in Hm. inversion Hm; subst. reflexivity. }
  destruct (String.eqb (version g) "" && String.eqb (Py.lower a1) "installer").
  { rewrite (main_checks_stop _ _ _ _ _ _ Hp Hv) in Hm. inversion Hm; subst.
    exists [msg_version]. simpl. rewrite printed_app. split; [reflexivity|].
    intros [E|[]]. now apply D3. }
  destruct (negb (Filename.nonzero (outputDir g))).
  { rewrite (main_checks_stop _ _ _ _ _ _ Hp Hv) in Hm. inversion Hm; subst.
    exists [msg_outputDir]. simpl. rewrite printed_app. split; [reflexivity|].
    intros [E|[]]. now apply D4. }
  rewrite (main_phases _ _ _ _ _ _ Hp Hv) in Hm. simpl in Hm.
  match type of Hm with
  | context [dispatch w ?r ?t0] => destruct (dispatch w r t0) as [t2 res] eqn:Hd
  end.
  assert (t2 = t) by (destruct res; congruence). subst t2.
  destruct (dispatch_printed _ _ _ _ Hd) as [E|E]; rewrite E.
  - exists []. rewrite app_nil_r. auto.
  - eexists. split; [reflexivity|]. simpl. intros [E'|[]]. apply D5. now rewrite E'.
Qed.

End Printing.

(** ** Validation *)

Lemma files_prints ps : files (map Print ps) = [].
Proof. unfold files. induction ps as [|p ps IH]; [reflexivity|exact IH]. Qed.

Lemma invocations_prints ps : invocations (map Print ps) = [].
Proof. induction ps as [|p ps IH]; [reflexivity|exact IH]. Qed.

(** C7.  In installer mode with an empty version the run ends with exit
    code 1 and has neither constructed nor called a builder, nor written
    a file; when the bundle passed its own checks, the last thing
    printed is the message that a version number is required. *)
Theorem installer_without_version_builds_nothing w opts g a0 a1 t s :
  parse_options w opts [] = ([], inr g) ->
  version g = EmptyString ->
  Py.lower a1 = "installer"%string ->
  main w (GetoptOk opts [a0; a1]) = (t, s) ->
  s = Exit 1
  /\ invocations t = []
  /\ files t = []
  /\ (String.eqb (Py.lower (Filename.getExtension (fromOsSpecific w a0))) "p3d" = true ->
      file_exists w (fromOsSpecific w a0) = true ->
      t = warning g ++ [Print msg_version]).
Proof.
  intros Hp Hver Hmode Hm.
  pose proof (validate_two w g a0 a1 []) as Hv. cbn zeta in Hv.
  rewrite Hver, Hmode in Hv. simpl (_ && _) in Hv. cbn iota in Hv.
  destruct (warning_prints g) as [ps Hps].
  destruct (String.eqb (Py.lower (Filename.getExtension (fromOsSpecific w a0))) "p3d");
    simpl in Hv.
  2:{ rewrite (main_checks_stop _ _ _ _ _ _ Hp Hv) in Hm. inversion Hm; subst.
      repeat split; try reflexivity. discriminate. }
  destruct (file_exists w (fromOsSpecific w a0)); simpl in Hv.
  2:{ rewrite (main_checks_stop _ _ _ _ _ _ Hp Hv) in Hm. inversion Hm; subst.
      repeat split; try reflexivity. discriminate. }
  rewrite (main_checks_stop _ _ _ _ _ _ Hp Hv) in Hm. inversion Hm; subst.
  split; [reflexivity|]. rewrite Hps.
  change (map Print ps ++ [Print msg_version]) with (map Print ps ++ map Print [msg_version]).
  rewrite <- map_app. split; [apply invocations_prints|].
  split; [apply files_prints|]. intros _ _. now rewrite map_app.
Qed.

Lemma installer_without_version_builds_nothing_witness :
  main (host "linux_amd64")
       (GetoptOk [("-P", "win32"); ("-v", "  ")]%string ["app.p3d"; "Installer"]%string)
  = ([Print msg_version], Exit 1)
  /\ invocations [Print msg_version] = []
  /\ files [Print msg_version] = [].
Proof.
  split; [reflexivity|].
  pose proof (installer_without_version_builds_nothing
                (host "linux_amd64")
                [("-P", "win32"); ("-v", "  ")]%string
                (mkGlobals "" "" "" "./" ∅ ["win32"%string] false "" "")
                "app.p3d" "Installer" [Print msg_version] (Exit 1)
                eq_refl eq_refl eq_refl eq_refl) as H.
  exact (conj (proj1 (proj2 H)) (proj1 (proj2 (proj2 H)))).
Defined.

(** C8.  Whether a run stops at the extension check depends on the
    lower-cased extension alone: it prints the extension message and
    exits with code 1 exactly when the lower-cased extension is not
    [p3d], so two bundle paths whose extensions agree up to case fare
    alike at this check. *)
Theorem extension_check_ignores_case w opts g a0 a1 :
  parse_options w opts [] = ([], inr g) ->
  (main w (GetoptOk opts [a0; a1]) = ([Print msg_extension], Exit 1)
   <-> Py.lower (Filename.getExtension (fromOsSpecific w a0)) <> "p3d"%string)
  /\ forall b0,
       Py.lower (Filename.getExtension (fromOsSpecific w b0))
       = Py.lower (Filename.getExtension (fromOsSpecific w a0)) ->
       (main w (GetoptOk opts [b0; a1]) = ([Print msg_extension], Exit 1)
        <-> main w (GetoptOk opts [a0; a1]) = ([Print msg_extension], Exit 1)).
Proof.
  intros Hp.
  assert (Hcheck : forall c0,
             main w (GetoptOk opts [c0; a1]) = ([Print msg_extension], Exit 1)
             <-> Py.lower (Filename.getExtension (fromOsSpecific w c0)) <> "p3d"%string).
  { intros c0. pose proof (validate_two w g c0 a1 []) as Hv. cbn zeta in Hv.
    destruct (String.eqb_spec
                (Py.lower (Filename.getExtension (fromOsSpecific w c0))) "p3d") as [E|E];
      simpl in Hv.
    2:{ rewrite (main_checks_stop _ _ _ _ _ _ Hp Hv). tauto. }
    split; [|tauto]. intros Hm. exfalso.
    destruct (warning_prints g) as [ps Hps]. rewrite Hps in Hv.
    destruct (negb (file_exists w (fromOsSpecific w c0))).
    { rewrite (main_checks_stop _ _ _ _ _ _ Hp Hv) in Hm.
      inversion Hm as [Hmsg]; vm_compute in Hmsg; discriminate Hmsg. }
    destruct (String.eqb (version g) "" && String.eqb (Py.lower a1) "installer").
    { rewrite (main_checks_stop _ _ _ _ _ _ Hp Hv) in Hm.
      destruct ps as [|p [|q ps]]; inversion Hm as [Hmsg];
        vm_compute in Hmsg; discriminate Hmsg. }
    destruct (negb (Filename.nonzero (outputDir g))).
    { rewrite (main_checks_stop _ _ _ _ _ _ Hp Hv) in Hm.
      destruct ps as [|p [|q ps]]; inversion Hm as [Hmsg];
        vm_compute in Hmsg; discriminate Hmsg. }
    rewrite (main_phases _ _ _ _ _ _ Hp Hv) in Hm.
    match type of Hm with
    | context [dispatch w ?r ?t0] => destruct (dispatch w r t0) as [t2 res] eqn:Hd
    end.
    destruct (dispatch_cases _ _ _ _ _ Hd) as [[_ [[-> _]|(e & -> & _)]]|(_ & -> & ->)];
      try discriminate Hm.
    destruct ps as [|p [|q ps]]; inversion Hm. }
  split; [apply Hcheck|].
  intros b0 Hb. rewrite !Hcheck, Hb. tauto.
Qed.

Lemma extension_check_ignores_case_witness :
  (main (host "linux_amd64") (GetoptOk [] ["app.P3D"; "html"]%string)
   = ([Print msg_extension], Exit 1)
   <-> Py.lower (Filename.getExtension "app.P3D") <> "p3d"%string)
  /\ (main (host "linux_amd64") (GetoptOk [] ["app.p3d"; "html"]%string)
      = ([Print msg_extension], Exit 1)
      <-> main (host "linux_amd64") (GetoptOk [] ["app.P3D"; "html"]%string)
          = ([Print msg_extension], Exit 1)).
Proof.
  pose proof (extension_check_ignores_case
                (host "linux_amd64") [] initial "app.P3D" "html" eq_refl) as H.
  exact (conj (proj1 H) (proj2 H "app.p3d"%string eq_refl)).
Defined.

(** C9.  The short-name warning is decided on the value of [-n] as the
    options left it, before the default is taken from the bundle: a run
    prints it exactly when the bundle passed its checks and that value
    has an upper-case letter or a space.  So it is printed only for a
    [-n] argument, and never when the short name is left to the bundle's
    base name, whatever that name looks like. *)
Theorem shortname_warning_precedes_defaulting w opts g a0 a1 t s :
  parse_options w opts [] = ([], inr g) ->
  main w (GetoptOk opts [a0; a1]) = (t, s) ->
  (In msg_shortname (printed t)
   <-> String.eqb (Py.lower (Filename.getExtension (fromOsSpecific w a0))) "p3d" = true
       /\ file_exists w (fromOsSpecific w a0) = true
       /\ has_upper (shortname g) || Py.contains " " (shortname g) = true)
  /\ (In msg_shortname (printed t) ->
      exists a, In ("-n"%string, a) opts /\ shortname g = Py.strip a)
  /\ (shortname g = EmptyString -> ~ In msg_shortname (printed t))
  /\ (existsb (is_opt "-n") opts = false -> shortname g = EmptyString).
Proof.
  intros Hp Hm.
  assert (Hiff : In msg_shortname (printed t)
                 <-> String.eqb (Py.lower (Filename.getExtension (fromOsSpecific w a0)))
                                "p3d" = true
                     /\ file_exists w (fromOsSpecific w a0) = true
                     /\ has_upper (shortname g) || Py.contains " " (shortname g) = true).
  { pose proof (main_printed _ _ _ _ _ _ _ Hp Hm) as H.
    destruct (msg_shortname_distinct EmptyString) as (D1 & D2 & _).
    rewrite <- bad_shortname_spec.
    destruct (String.eqb (Py.lower (Filename.getExtension (fromOsSpecific w a0))) "p3d");
      simpl in H.
    2:{ rewrite H. simpl. split; [intros [E|[]]; now symmetry in E|intros [? _]; discriminate]. }
    destruct (file_exists w (fromOsSpecific w a0)); simpl in H.
    2:{ rewrite H. simpl.
        split; [intros [E|[]]; now symmetry in E|intros (_ & ? & _); discriminate]. }
    destruct H as (rest & -> & Hrest). unfold warning.
    destruct (bad_shortname (shortname g)); simpl.
    - split; auto.
    - split; [intros Hin; contradiction|intros (_ & _ & ?); discriminate]. }
  split; [exact Hiff|].
  destruct (fold_options_shortname w opts _ _ _ _ Hp) as [[Hs Hn]|(a & Ha & Hs)].
  - simpl in Hs. repeat split.
    + intros Hin. apply Hiff in Hin as (_ & _ & Hbad). rewrite Hs in Hbad. discriminate.
    + intros _ Hin. apply Hiff in Hin as (_ & _ & Hbad). rewrite Hs in Hbad. discriminate.
    + intros _. exact Hs.
  - repeat split.
    + intros _. eauto.
    + intros Hs' Hin. apply Hiff in Hin as (_ & _ & Hbad). rewrite Hs' in Hbad. discriminate.
    + intros Hn. exfalso. clear -Ha Hn.
      induction opts as [|[o x] l IH]; [contradiction|].
      simpl in Hn. apply orb_false_iff in Hn as [H1 H2].
      destruct Ha as [E|Hin]; [inversion E; subst; discriminate H1|auto].
Qed.

Lemma shortname_warning_precedes_defaulting_witness :
  main (host "linux_amd64") (GetoptOk [("-v", "1")]%string ["My App.p3d"; "installer"]%string)
  = ([Invoke (NewInstaller "My App" "My App" "My App.p3d" "1" ∅);
      SetLicensename ""; SetLicensefile "";
      Invoke (InstallerBuildAll "./")],
     Exit 0)
  /\ ~ In msg_shortname
          (printed [Invoke (NewInstaller "My App" "My App" "My App.p3d" "1" ∅);
                    SetLicensename ""; SetLicensefile "";
                    Invoke (InstallerBuildAll "./")]).
Proof.
  split; [reflexivity|].
  pose proof (shortname_warning_precedes_defaulting
                (host "linux_amd64") [("-v", "1")]%string
                (mkGlobals "" "" "1" "./" ∅ [] false "" "")
                "My App.p3d" "installer"
                [Invoke (NewInstaller "My App" "My App" "My App.p3d" "1" ∅);
                 SetLicensename ""; SetLicensefile "";
                 Invoke (InstallerBuildAll "./")]
                (Exit 0) eq_refl eq_refl) as H.
  exact (proj1 (proj2 (proj2 H)) eq_refl).
Defined.

(** ** Tokens *)

Lemma fold_each_app {A S} (step : S -> A -> M S) l1 l2 : forall s0 t,
  fold_each step s0 (l1 ++ l2) t
  = (fold_each step s0 l1 ≫= fun s1 => fold_each step s1 l2) t.
Proof.
  induction l1 as [|x l1 IH]; intros s0 t; [reflexivity|].
  simpl. unfold mbind, M_bind, bind.
  destruct (step s0 x t) as [t' [e|s1]]; [reflexivity|]. apply IH.
Qed.

(** C10.  A [-t] argument that, stripped, has no [=] makes the option
    loop read past the end of the one-field split: the run ends there in
    an uncaught [IndexError], with nothing printed, not in the usage
    text and exit code 1.  With an [=] the argument is cut at the first
    one only: the key is what precedes it and the value all that
    follows, further [=] included. *)
Theorem token_without_equals_raises w opts1 opts2 args g arg :
  parse_options w opts1 [] = ([], inr g) ->
  (Py.contains "=" (Py.strip arg) = false ->
   main w (GetoptOk (opts1 ++ ("-t"%string, arg) :: opts2) args)
   = ([], Uncaught IndexError))
  /\ (forall k v,
        Py.contains "=" k = false ->
        Py.strip arg = k +:+ "=" +:+ v ->
        forall t,
          option_step w g ("-t"%string, arg) t
          = (t, inr (set_tokens (<[k := v]> (tokens g)) g))).
Proof.
  intros Hp. split.
  - intros Hno. apply main_options_stop. unfold parse_options in *.
    rewrite fold_each_app, (bind_inr _ _ _ _ _ Hp). simpl.
    apply bind_inl. unfold option_step. simpl. unfold Py.split1.
    apply partition_none in Hno. rewrite Hno. reflexivity.
  - intros k v Hk Hs t. unfold option_step. simpl. unfold Py.split1. rewrite Hs.
    change (k +:+ "=" +:+ v) with (k +:+ String "=" v).
    rewrite (partition_first _ _ _ Hk). reflexivity.
Qed.

Lemma token_without_equals_raises_witness :
  main (host "linux_amd64")
       (GetoptOk ([("-o", "out")%string] ++ ("-t", " width ")%string :: [("-h", "")%string])
                 ["app.p3d"; "html"]%string)
  = ([], Uncaught IndexError)
  /\ option_step (host "linux_amd64")
                 (mkGlobals "" "" "" "out" ∅ [] false "" "")
                 ("-t", "a=b=c")%string []
     = ([], inr (mkGlobals "" "" "" "out" {[ "a"%string := "b=c"%string ]} [] false "" "")).
Proof.
  split.
  - exact (proj1 (token_without_equals_raises
                    (host "linux_amd64") [("-o", "out")]%string [("-h", "")]%string
                    ["app.p3d"; "html"]%string
                    (mkGlobals "" "" "" "out" ∅ [] false "" "")
                    " width " eq_refl)
                 eq_refl).
  - exact (proj2 (token_without_equals_raises
                    (host "linux_amd64") [("-o", "out")]%string [("-h", "")]%string
                    ["app.p3d"; "html"]%string
                    (mkGlobals "" "" "" "out" ∅ [] false "" "")
                    "a=b=c" eq_refl)
                 "a"%string "b=c"%string eq_refl eq_refl []).
Defined.

(** * Further properties of the script *)

(** ** More on the option loop *)

Section MoreOptions.

Variable w : World.

(** What one option that goes through does to the other variables. *)
Lemma option_step_fields g opt arg t t' g' :
  option_step w g (opt, arg) t = (t', inr g') ->
  fullname g' = (if String.eqb opt "-N" then Py.strip arg else fullname g)
  /\ outputDir g' = (if String.eqb opt "-o" then fromOsSpecific w arg else outputDir g)
  /\ licensename g' = (if String.eqb opt "-l" then Py.strip arg else licensename g)
  /\ licensefile g' = (if String.eqb opt "-L" then fromOsSpecific w arg else licensefile g)
  /\ tokens g' = (if String.eqb opt "-t"
                  then match Py.partition "=" (Py.strip arg) with
                       | Some (k, v) => <[k := v]> (tokens g)
                       | None => tokens g
                       end
                  else tokens g).
Proof.
  unfold option_step. intros H.
  destruct (String.eqb opt "-n") eqn:En.
  { apply String.eqb_eq in En; subst opt. inversion H; subst. simpl. auto. }
  destruct (String.eqb opt "-N") eqn:EN.
  { apply String.eqb_eq in EN; subst opt. inversion H; subst. simpl. auto. }
  destruct (String.eqb opt "-v") eqn:Ev.
  { apply String.eqb_eq in Ev; subst opt. inversion H; subst. simpl. auto. }
  destruct (String.eqb opt "-o") eqn:Eo.
  { apply String.eqb_eq in Eo; subst opt. inversion H; subst. simpl. auto. }
  destruct (String.eqb opt "-t") eqn:Et.
  { apply String.eqb_eq in Et; subst opt. unfold Py.split1 in H.
    destruct (Py.partition "=" (Py.strip arg)) as [[k v]|];
      inversion H; subst. simpl. auto. }
  destruct (String.eqb opt "-P") eqn:EP.
  { apply String.eqb_eq in EP; subst opt. inversion H; subst. simpl. auto. }
  destruct (String.eqb opt "-c") eqn:Ec.
  { apply String.eqb_eq in Ec; subst opt. inversion H; subst. simpl. auto. }
  destruct (String.eqb opt "-l") eqn:El.
  { apply String.eqb_eq in El; subst opt. inversion H; subst. simpl. auto. }
  destruct (String.eqb opt "-L") eqn:EL.
  { apply String.eqb_eq in EL; subst opt. inversion H; subst. simpl. auto. }
  destruct (String.eqb opt "-h") eqn:Eh.
  { unfold_monad. discriminate H. }
  unfold_monad. discriminate H.
Qed.

(** The three ways one option can end the run. *)
Lemma option_step_stops g opt arg t t' s :
  option_step w g (opt, arg) t = (t', inl s) ->
  (opt = "-h"%string /\ s = Exit 0 /\ t' = t ++ [PrintUsage (prog w); PrintErr ""])
  \/ (opt = "-t"%string /\ s = Uncaught IndexError /\ t' = t
      /\ Py.contains "=" (Py.strip arg) = false)
  \/ (~ In opt known_options /\ s = Uncaught NameError /\ t' = t).
Proof.
  unfold option_step. intros H.
  destruct (String.eqb opt "-n") eqn:En; [discriminate H|].
  destruct (String.eqb opt "-N") eqn:EN; [discriminate H|].
  destruct (String.eqb opt "-v") eqn:Ev; [discriminate H|].
  destruct (String.eqb opt "-o") eqn:Eo; [discriminate H|].
  destruct (String.eqb opt "-t") eqn:Et.
  { apply String.eqb_eq in Et; subst opt. right; left. unfold Py.split1 in H.
    destruct (Py.partition "=" (Py.strip arg)) as [[k v]|] eqn:E; [discriminate H|].
    inversion H; subst. repeat split. now apply partition_none. }
  destruct (String.eqb opt "-P") eqn:EP; [discriminate H|].
  destruct (String.eqb opt "-c") eqn:Ec; [discriminate H|].
  destruct (String.eqb opt "-l") eqn:El; [discriminate H|].
  destruct (String.eqb opt "-L") eqn:EL; [discriminate H|].
  destruct (String.eqb opt "-h") eqn:Eh.
  { apply String.eqb_eq in Eh; subst opt. left. unfold_monad.
    inversion H; subst. rewrite <- app_assoc. auto. }
  right; right. inversion H; subst. repeat split.
  apply String.eqb_neq in En, EN, Ev, Eo, Et, EP, Ec, El, EL, Eh.
  simpl. intros [E|[E|[E|[E|[E|[E|[E|[E|[E|[E|[]]]]]]]]]]]; congruence.
Qed.

(** A loop that goes through went through its first option. *)
Lemma fold_options_cons g opt arg opts t t' g' :
  fold_each (option_step w) g ((opt, arg) :: opts) t = (t', inr g') ->
  exists g1,
    option_step w g (opt, arg) t = (t, inr g1)
    /\ fold_each (option_step w) g1 opts t = (t', inr g').
Proof.
  intros H. simpl in H.
  destruct (option_step_cases w g opt arg t) as [(g1 & E & _)|[(e & E)|(_ & E)]].
  - rewrite (bind_inr _ _ _ _ _ E) in H. eauto.
  - rewrite (bind_inl _ _ _ _ _ E) in H. discriminate H.
  - rewrite (bind_inl _ _ _ _ _ E) in H. discriminate H.
Qed.

(** How a loop that does not go through ended. *)
Lemma fold_options_stops opts : forall g t t' s,
  fold_each (option_step w) g opts t = (t', inl s) ->
  (s = Exit 0 /\ t' = t ++ [PrintUsage (prog w); PrintErr ""]
   /\ existsb (is_opt "-h") opts = true)
  \/ (s = Uncaught IndexError /\ t' = t
      /\ exists arg, In ("-t"%string, arg) opts
                     /\ Py.contains "=" (Py.strip arg) = false)
  \/ (s = Uncaught NameError /\ t' = t
      /\ exists oa, In oa opts /\ ~ In (fst oa) known_options).
Proof.
  induction opts as [|[opt arg] opts IH]; intros g t t' s H; simpl in H.
  - unfold_monad. discriminate H.
  - destruct (option_step w g (opt, arg) t) as [t1 [s1|g1]] eqn:E.
    + rewrite (bind_inl _ _ _ _ _ E) in H. inversion H; subst.
      destruct (option_step_stops _ _ _ _ _ _ E)
        as [(-> & -> & ->)|[(-> & -> & -> & Hc)|(Hn & -> & ->)]].
      * left. auto.
      * right; left. repeat split. exists arg. split; [now left|exact Hc].
      * right; right. repeat split. exists (opt, arg). split; [now left|exact Hn].
    + rewrite (bind_inr _ _ _ _ _ E) in H.
      assert (t1 = t).
      { destruct (option_step_cases w g opt arg t) as [(g2 & E' & _)|[(e & E')|(_ & E')]];
          congruence. }
      subst t1. apply IH in H.
      destruct H as [(-> & -> & Hh)|[(-> & -> & a & Ha & Hc)|(-> & -> & oa & Ho & Hn)]].
      * left. repeat split. simpl. rewrite Hh. apply orb_true_r.
      * right; left. repeat split. exists a. split; [now right|exact Hc].
      * right; right. repeat split. exists oa. split; [now right|exact Hn].
Qed.

(** [fullname] is what it was, or the stripped argument of a [-N]. *)
Lemma fold_options_fullname opts : forall g t t' g',
  fold_each (option_step w) g opts t = (t', inr g') ->
  (fullname g' = fullname g /\ existsb (is_opt "-N") opts = false)
  \/ (exists a, In ("-N"%string, a) opts /\ fullname g' = Py.strip a).
Proof.
  induction opts as [|[opt arg] opts IH]; intros g t t' g' H.
  - simpl in H. unfold_monad. left. split; [congruence|reflexivity].
  - destruct (fold_options_cons _ _ _ _ _ _ _ H) as (g1 & E & H1).
    destruct (option_step_fields _ _ _ _ _ _ E) as (HN & _).
    destruct (IH _ _ _ _ H1) as [[H2 H3]|(a & Ha & H2)].
    + simpl. unfold is_opt at 1. simpl.
      destruct (String.eqb opt "-N") eqn:EN.
      * right. apply String.eqb_eq in EN; subst opt.
        exists arg. split; [now left|congruence].
      * left. split; [congruence|assumption].
    + right. exists a. split; [now right|assumption].
Qed.

(** [outputDir] is what it was, or the converted argument of a [-o]. *)
Lemma fold_options_outputDir opts : forall g t t' g',
  fold_each (option_step w) g opts t = (t', inr g') ->
  (outputDir g' = outputDir g /\ existsb (is_opt "-o") opts = false)
  \/ (exists a, In ("-o"%string, a) opts /\ outputDir g' = fromOsSpecific w a).
Proof.
  induction opts as [|[opt arg] opts IH]; intros g t t' g' H.
  - simpl in H. unfold_monad. left. split; [congruence|reflexivity].
  - destruct (fold_options_cons _ _ _ _ _ _ _ H) as (g1 & E & H1).
    destruct (option_step_fields _ _ _ _ _ _ E) as (_ & Ho & _).
    destruct (IH _ _ _ _ H1) as [[H2 H3]|(a & Ha & H2)].
    + simpl. unfold is_opt at 1. simpl.
      destruct (String.eqb opt "-o") eqn:Eo.
      * right. apply String.eqb_eq in Eo; subst opt.
        exists arg. split; [now left|congruence].
      * left. split; [congruence|assumption].
    + right. exists a. split; [now right|assumption].
Qed.

(** Every token comes from a [-t] option. *)
Lemma fold_options_token_source opts : forall g t t' g' (k v : string),
  fold_each (option_step w) g opts t = (t', inr g') ->
  tokens g' !! k = Some v ->
  tokens g !! k = Some v
  \/ exists arg, In ("-t"%string, arg) opts
                 /\ Py.partition "=" (Py.strip arg) = Some (k, v).
Proof.
  induction opts as [|[opt arg] opts IH]; intros g t t' g' k v H Hk.
  - simpl in H. unfold_monad. left. congruence.
  - destruct (fold_options_cons _ _ _ _ _ _ _ H) as (g1 & E & H1).
    destruct (option_step_fields _ _ _ _ _ _ E) as (_ & _ & _ & _ & Ht).
    destruct (IH _ _ _ _ _ _ H1 Hk) as [H2|(a & Ha & H2)].
    2:{ right. exists a. split; [now right|assumption]. }
    rewrite Ht in H2. destruct (String.eqb opt "-t") eqn:Et; [|now left].
    apply String.eqb_eq in Et; subst opt.
    destruct (Py.partition "=" (Py.strip arg)) as [[k0 v0]|] eqn:Ep; [|now left].
    destruct (decide (k0 = k)) as [->|Hne].
    + rewrite lookup_insert_eq in H2. right. exists arg. split; [now left|congruence].
    + rewrite lookup_insert_ne in H2 by exact Hne. now left.
Qed.

(** Options that set no token for the key [k] leave its entry alone. *)
Lemma fold_options_token_kept opts : forall g t t' g' (k : string),
  fold_each (option_step w) g opts t = (t', inr g') ->
  (forall arg v, In ("-t"%string, arg) opts ->
                 Py.partition "=" (Py.strip arg) <> Some (k, v)) ->
  tokens g' !! k = tokens g !! k.
Proof.
  induction opts as [|[opt arg] opts IH]; intros g t t' g' k H Hno.
  - simpl in H. unfold_monad. congruence.
  - destruct (fold_options_cons _ _ _ _ _ _ _ H) as (g1 & E & H1).
    destruct (option_step_fields _ _ _ _ _ _ E) as (_ & _ & _ & _ & Ht).
    rewrite (IH _ _ _ _ k H1) by (intros a v Ha; apply Hno; now right).
    rewrite Ht. destruct (String.eqb opt "-t") eqn:Et; [|reflexivity].
    apply String.eqb_eq in Et; subst opt.
    destruct (Py.partition "=" (Py.strip arg)) as [[k0 v0]|] eqn:Ep; [|reflexivity].
    apply lookup_insert_ne. intros ->. apply (Hno arg v0); [now left|exact Ep].
Qed.

End MoreOptions.

(** ** The phases of a run *)

Section Phases.

Variable w : World.

(** A run ends in the option loop, in the checks, or in or after the
    dispatch. *)
Lemma main_cases opts args t s :
  main w (GetoptOk opts args) = (t, s) ->
  parse_options w opts [] = (t, inl s)
  \/ (exists g, parse_options w opts [] = ([], inr g)
                /\ validate w g args [] = (t, inl s))
  \/ (exists g r t1,
         parse_options w opts [] = ([], inr g)
         /\ validate w g args [] = (t1, inr r)
         /\ (dispatch w r t1 = (t, inl s)
             \/ (dispatch w r t1 = (t, inr tt) /\ s = Exit 0))).
Proof.
  intros Hm.
  destruct (parse_options w opts []) as [t0 [s0|g]] eqn:Hp.
  { rewrite (main_options_stop _ _ _ _ _ Hp) in Hm. left. congruence. }
  assert (t0 = []) by (eapply fold_options_trace; exact Hp). subst t0.
  right. destruct (validate w g args []) as [t1 [s1|r]] eqn:Hv.
  { rewrite (main_checks_stop _ _ _ _ _ _ Hp Hv) in Hm. left. exists g.
    split; [reflexivity|congruence]. }
  right. exists g, r, t1. split; [reflexivity|]. split; [exact Hv|].
  rewrite (main_phases _ _ _ _ _ _ Hp Hv) in Hm.
  destruct (dispatch w r t1) as [t2 [s2|[]]]; [left|right]; inversion Hm; subst; auto.
Qed.

(** The dispatch raises only from a collaborator, in the two builder
    modes, or from [open], in html mode. *)
Lemma dispatch_raises r t t' e :
  dispatch w r t = (t', inl (Uncaught e)) ->
  (e = BuilderError
   /\ (deploy_mode r = "standalone"%string \/ deploy_mode r = "installer"%string))
  \/ (e = IOError /\ deploy_mode r = "html"%string
      /\ can_open w (shortname (vars r) +:+ ".html") = false).
Proof.
  unfold dispatch. intros H.
  destruct (String.eqb (deploy_mode r) "standalone") eqn:Es.
  { left. destruct (deploy_standalone_cases _ _ _ _ _ Es H) as [[E _]|[E _]];
      inversion E; subst. split; [reflexivity|]. left. now apply String.eqb_eq. }
  destruct (String.eqb (deploy_mode r) "installer") eqn:Ei.
  { left. destruct (deploy_installer_cases _ _ _ _ _ Es Ei H) as [[E _]|[E _]];
      inversion E; subst. split; [reflexivity|]. right. now apply String.eqb_eq. }
  destruct (String.eqb (deploy_mode r) "html") eqn:Eh.
  { right. rewrite deploy_html_run in H.
    destruct (can_open w _) eqn:Eo; inversion H; subst.
    repeat split. now apply String.eqb_eq. }
  unfold_monad. discriminate H.
Qed.

Lemma sar_ret {A} (a : A) : stops_at_raise w (mret a : M A).
Proof. intros t t' H. unfold_monad. discriminate H. Qed.

Lemma sar_bind {A B} (m : M A) (k : A -> M B) :
  stops_at_raise w m -> (forall a, stops_at_raise w (k a)) -> stops_at_raise w (m ≫= k).
Proof.
  intros Hm Hk t t' H. unfold mbind, M_bind, bind in H.
  destruct (m t) as [t0 [s|a]] eqn:E.
  - inversion H; subst. eapply Hm; eauto.
  - eapply Hk; eauto.
Qed.

Lemma sar_invoke c : stops_at_raise w (invoke w c).
Proof.
  intros t t' H. unfold invoke in H.
  destruct (collaborator w t c) eqn:E; inversion H; subst. eauto.
Qed.

Lemma sar_emit e : stops_at_raise w (emit e).
Proof. intros t t' H. unfold emit in H. discriminate H. Qed.

Lemma sar_for_each {A} (body : A -> M unit) l :
  (forall x, stops_at_raise w (body x)) -> stops_at_raise w (for_each body l).
Proof.
  intros Hb. induction l as [|x l IH]; simpl.
  - apply sar_ret.
  - apply sar_bind; [apply Hb|intros _; exact IH].
Qed.

Ltac raise_stops :=
  repeat first
    [ apply sar_bind; [|intros ?]
    | apply sar_invoke
    | apply sar_ret
    | apply sar_emit
    | apply sar_for_each; intros ?
    | match goal with |- stops_at_raise _ (if ?c then _ else _) => destruct c end ].

Lemma sar_dispatch r : stops_at_raise w (dispatch w r).
Proof.
  unfold dispatch.
  destruct (String.eqb (deploy_mode r) "standalone").
  { unfold deploy_standalone. cbn zeta. raise_stops. }
  destruct (String.eqb (deploy_mode r) "installer").
  { unfold deploy_installer. cbn zeta. raise_stops. }
  destruct (String.eqb (deploy_mode r) "html").
  { intros t t' H. rewrite deploy_html_run in H.
    destruct (can_open w _); discriminate H. }
  intros t t' H. unfold_monad. discriminate H.
Qed.

End Phases.

(** ** Usage errors *)

(** X1.  [-h] ends the run with the usage text and exit code 0 as soon
    as the loop reaches it: the options after it are not read, the
    arguments are not counted and the bundle is not checked. *)
Theorem help_exits_before_checks w opts1 a opts2 args g :
  parse_options w opts1 [] = ([], inr g) ->
  main w (GetoptOk (opts1 ++ ("-h"%string, a) :: opts2) args)
  = ([PrintUsage (prog w); PrintErr ""], Exit 0).
Proof.
  intros Hp. apply main_options_stop. unfold parse_options in *.
  rewrite fold_each_app, (bind_inr _ _ _ _ _ Hp). simpl.
  apply bind_inl. reflexivity.
Qed.

Lemma help_exits_before_checks_witness :
  main (host "linux_amd64")
       (GetoptOk ([("-P", "win32")%string] ++ ("-h", "")%string :: [("-t", "width")%string])
                 ["missing.txt"%string])
  = ([PrintUsage "pdeploy"; PrintErr ""], Exit 0).
Proof.
  exact (help_exits_before_checks
           (host "linux_amd64") [("-P", "win32")%string] "" [("-t", "width")%string]
           ["missing.txt"%string]
           (mkGlobals "" "" "" "./" ∅ ["win32"%string] false "" "")
           eq_refl).
Defined.

(** X2.  After the options, anything but exactly two arguments gives the
    usage text and exit code 1; the bundle is not looked at. *)
Theorem wrong_argument_count_is_usage w opts args g :
  parse_options w opts [] = ([], inr g) ->
  length args <> 2%nat ->
  main w (GetoptOk opts args) = ([PrintUsage (prog w); PrintErr ""], Exit 1).
Proof.
  intros Hp Hn. apply (main_checks_stop _ _ _ _ _ _ Hp).
  apply (validate_usage w g args [] Hn).
Qed.

Lemma wrong_argument_count_is_usage_witness :
  main (host "linux_amd64")
       (GetoptOk [("-c", "")%string] ["app.p3d"; "standalone"; "extra"]%string)
  = ([PrintUsage "pdeploy"; PrintErr ""], Exit 1).
Proof.
  apply (wrong_argument_count_is_usage
           (host "linux_amd64") [("-c", "")%string]
           ["app.p3d"; "standalone"; "extra"]%string
           (mkGlobals "" "" "" "./" ∅ [] true "" "")).
  - reflexivity.
  - simpl. lia.
Defined.

(** X3.  The mode argument is read in lower case: two runs whose mode
    arguments differ only in the case of their letters are the same
    run. *)
Theorem mode_is_case_insensitive w opts a0 a1 b1 :
  Py.lower a1 = Py.lower b1 ->
  main w (GetoptOk opts [a0; a1]) = main w (GetoptOk opts [a0; b1]).
Proof.
  intros H. unfold main, pdeploy, mbind, M_bind, bind.
  destruct (parse_options w opts []) as [t0 [s|g]]; [reflexivity|].
  rewrite !validate_two. cbn zeta. rewrite H. reflexivity.
Qed.

Lemma mode_is_case_insensitive_witness :
  main (host "linux_amd64") (GetoptOk [("-c", "")%string] ["app.p3d"; "Standalone"]%string)
  = main (host "linux_amd64") (GetoptOk [("-c", "")%string] ["app.p3d"; "STANDALONE"]%string).
Proof.
  exact (mode_is_case_insensitive
           (host "linux_amd64") [("-c", "")%string] "app.p3d" "Standalone" "STANDALONE"
           eq_refl).
Defined.

(** X4.  A mode that is none of [DEPLOY_MODES] is turned down only after
    the request passed every check: the run then prints the usage text
    with the message of line 228 and exits with code 1, having called no
    collaborator. *)
Theorem unknown_mode_is_rejected_after_checks w opts args g r t1 :
  parse_options w opts [] = ([], inr g) ->
  validate w g args [] = (t1, inr r) ->
  ~ In (deploy_mode r) DEPLOY_MODES ->
  main w (GetoptOk opts args)
  = (t1 ++ [PrintUsage (prog w); PrintErr msg_mode], Exit 1)
  /\ invocations (t1 ++ [PrintUsage (prog w); PrintErr msg_mode]) = [].
Proof.
  intros Hp Hv Hn. rewrite (main_phases _ _ _ _ _ _ Hp Hv).
  destruct (dispatch w r t1) as [t2 res] eqn:Hd.
  destruct (dispatch_cases _ _ _ _ _ Hd) as [[Hin _]|(_ & -> & ->)]; [contradiction|].
  split; [reflexivity|].
  destruct (validate_ok _ _ _ _ _ _ Hv) as (a0 & a1 & _ & _ & _ & _ & _ & -> & _).
  rewrite !invocations_app, invocations_warning. reflexivity.
Qed.

Lemma unknown_mode_is_rejected_after_checks_witness :
  main (host "linux_amd64") (GetoptOk [("-n", "My App")%string] ["app.p3d"; "zip"]%string)
  = ([Print msg_shortname] ++ [PrintUsage "pdeploy"; PrintErr msg_mode], Exit 1)
  /\ invocations ([Print msg_shortname] ++ [PrintUsage "pdeploy"; PrintErr msg_mode]) = [].
Proof.
  apply (unknown_mode_is_rejected_after_checks
           (host "linux_amd64") [("-n", "My App")%string] ["app.p3d"; "zip"]%string
           (mkGlobals "My App" "" "" "./" ∅ [] false "" "")
           (mkRequest "app.p3d" "zip"
              (mkGlobals "My App" "My App" "" "./" ∅ [] false "" ""))
           [Print msg_shortname]).
  - reflexivity.
  - reflexivity.
  - simpl. intros [H|[H|[H|[]]]]; discriminate H.
Defined.

(** ** The checks, taken together *)

(** X5.  The checks of lines 147-175 let a request through exactly when
    there are two arguments, the bundle has the extension [p3d] up to
    case and exists, the version is not empty in installer mode, and
    the output directory is not empty; when they stop the run, it is
    with exit code 1, never with an exception. *)
Theorem validate_accepts_exactly w g args t :
  ((exists t' r, validate w g args t = (t', inr r))
   <-> exists a0 a1,
         args = [a0; a1]
         /\ String.eqb (Py.lower (Filename.getExtension (fromOsSpecific w a0))) "p3d" = true
         /\ file_exists w (fromOsSpecific w a0) = true
         /\ (String.eqb (version g) "" && String.eqb (Py.lower a1) "installer" = false)
         /\ Filename.nonzero (outputDir g) = true)
  /\ forall t' s, validate w g args t = (t', inl s) -> s = Exit 1.
Proof.
  split; [split|].
  - intros (t' & r & H).
    destruct (validate_ok _ _ _ _ _ _ H) as (a0 & a1 & ? & ? & ? & ? & ? & _).
    exists a0, a1. auto.
  - intros (a0 & a1 & -> & He & Hx & Hv & Ho).
    rewrite validate_two. cbn zeta. rewrite He, Hx, Hv, Ho. simpl. eauto.
  - intros t' s. apply validate_exit.
Qed.

(** X6.  A bundle with the right extension that does not exist ends the
    run with the message of line 157 and exit code 1, before the short
    name is looked at and whatever the mode. *)
Theorem missing_bundle_is_rejected w opts g a0 a1 :
  parse_options w opts [] = ([], inr g) ->
  String.eqb (Py.lower (Filename.getExtension (fromOsSpecific w a0))) "p3d" = true ->
  file_exists w (fromOsSpecific w a0) = false ->
  main w (GetoptOk opts [a0; a1]) = ([Print msg_missing], Exit 1).
Proof.
  intros Hp He Hx. apply (main_checks_stop _ _ _ _ _ _ Hp).
  rewrite validate_two. cbn zeta. rewrite He, Hx. reflexivity.
Qed.

Lemma missing_bundle_is_rejected_witness :
  main (mkWorld "pdeploy" (fun s => s) (fun _ => false) "linux_amd64"
                (fun _ => true) (fun _ _ => Returns Success))
       (GetoptOk [("-n", "My App")%string] ["app.p3d"; "zip"]%string)
  = ([Print msg_missing], Exit 1).
Proof.
  exact (missing_bundle_is_rejected
           (mkWorld "pdeploy" (fun s => s) (fun _ => false) "linux_amd64"
                    (fun _ => true) (fun _ _ => Returns Success))
           [("-n", "My App")%string]
           (mkGlobals "My App" "" "" "./" ∅ [] false "" "")
           "app.p3d" "zip" eq_refl eq_refl eq_refl).
Defined.

(** X7.  Without [-o] the output directory is [./], so the check of line
    173 can only fail for a [-o] argument that converts to the empty
    Filename; when it does fail, in any mode, the run ends with the
    message of line 174 and exit code 1. *)
Theorem output_directory_check w opts g a0 a1 :
  parse_options w opts [] = ([], inr g) ->
  (existsb (is_opt "-o") opts = false -> outputDir g = "./"%string)
  /\ (Filename.nonzero (outputDir g) = false ->
      exists a, In ("-o"%string, a) opts /\ fromOsSpecific w a = Filename.empty)
  /\ (String.eqb (Py.lower (Filename.getExtension (fromOsSpecific w a0))) "p3d" = true ->
      file_exists w (fromOsSpecific w a0) = true ->
      String.eqb (version g) "" && String.eqb (Py.lower a1) "installer" = false ->
      Filename.nonzero (outputDir g) = false ->
      main w (GetoptOk opts [a0; a1]) = (warning g ++ [Print msg_outputDir], Exit 1)).
Proof.
  intros Hp.
  destruct (fold_options_outputDir w opts _ _ _ _ Hp) as [[Ho Hn]|(a & Ha & Ho)].
  - simpl in Ho. split; [auto|]. split.
    + intros H. rewrite Ho in H. discriminate H.
    + intros _ _ _ H. rewrite Ho in H. discriminate H.
  - split.
    { intros Hn. exfalso. clear -Ha Hn.
      induction opts as [|[o x] l IH]; [contradiction|].
      simpl in Hn. apply orb_false_iff in Hn as [H1 H2].
      destruct Ha as [E|Hin]; [inversion E; subst; discriminate H1|auto]. }
    split.
    { intros H. exists a. split; [exact Ha|]. rewrite Ho in H.
      unfold Filename.nonzero in H. apply negb_false_iff, String.eqb_eq in H. exact H. }
    intros He Hx Hv Hz. apply (main_checks_stop _ _ _ _ _ _ Hp).
    rewrite validate_two. cbn zeta. rewrite He, Hx, Hv, Hz. reflexivity.
Qed.

Lemma output_directory_check_witness :
  main (host "linux_amd64") (GetoptOk [("-o", "")%string] ["app.p3d"; "html"]%string)
  = ([Print msg_outputDir], Exit 1).
Proof.
  exact (proj2 (proj2 (output_directory_check
                         (host "linux_amd64") [("-o", "")%string]
                         (mkGlobals "" "" "" "" ∅ [] false "" "")
                         "app.p3d" "html" eq_refl))
               eq_refl eq_refl eq_refl eq_refl).
Defined.

(** X8.  Without [-n] the short name of the request is the bundle's base
    name without its extension, and without [-N] the full name is the
    short name of the request; a short or full name that the options
    left non-empty is kept. *)
Theorem names_default_from_bundle w opts args g r t1 :
  parse_options w opts [] = ([], inr g) ->
  validate w g args [] = (t1, inr r) ->
  (existsb (is_opt "-n") opts = false ->
   shortname (vars r) = Filename.getBasenameWoExtension (appFilename r))
  /\ (existsb (is_opt "-N") opts = false -> fullname (vars r) = shortname (vars r))
  /\ (shortname g <> EmptyString -> shortname (vars r) = shortname g)
  /\ (fullname g <> EmptyString -> fullname (vars r) = fullname g).
Proof.
  intros Hp Hv.
  destruct (validate_ok _ _ _ _ _ _ Hv) as (a0 & a1 & _ & _ & _ & _ & _ & _ & ->).
  cbn [vars appFilename].
  assert (Hs0 : existsb (is_opt "-n") opts = false -> shortname g = EmptyString).
  { intros Hn. destruct (fold_options_shortname w opts _ _ _ _ Hp) as [[Hs _]|(a & Ha & _)];
      [exact Hs|].
    exfalso. clear -Ha Hn. induction opts as [|[o x] l IH]; [contradiction|].
    simpl in Hn. apply orb_false_iff in Hn as [H1 H2].
    destruct Ha as [E|Hin]; [inversion E; subst; discriminate H1|auto]. }
  assert (Hf0 : existsb (is_opt "-N") opts = false -> fullname g = EmptyString).
  { intros Hn. destruct (fold_options_fullname w opts _ _ _ _ Hp) as [[Hs _]|(a & Ha & _)];
      [exact Hs|].
    exfalso. clear -Ha Hn. induction opts as [|[o x] l IH]; [contradiction|].
    simpl in Hn. apply orb_false_iff in Hn as [H1 H2].
    destruct Ha as [E|Hin]; [inversion E; subst; discriminate H1|auto]. }
  clear Hp Hv. destruct g as [sn fn ver od tk pl cp ln lf]. unfold defaulted. simpl in *.
  repeat split.
  - intros Hn. rewrite (Hs0 Hn). simpl. destruct (String.eqb fn ""); reflexivity.
  - intros Hn. rewrite (Hf0 Hn). destruct (String.eqb sn ""); reflexivity.
  - intros Hne. apply String.eqb_neq in Hne. rewrite Hne. simpl.
    destruct (String.eqb fn ""); reflexivity.
  - intros Hne. apply String.eqb_neq in Hne.
    destruct (String.eqb sn ""); simpl; rewrite Hne; reflexivity.
Qed.

Lemma names_default_from_bundle_witness :
  shortname (mkGlobals "game" "game" "" "./" ∅ [] true "" "")
  = Filename.getBasenameWoExtension "dist/game.P3D"
  /\ fullname (mkGlobals "game" "game" "" "./" ∅ [] true "" "")
     = shortname (mkGlobals "game" "game" "" "./" ∅ [] true "" "").
Proof.
  pose proof (names_default_from_bundle
                (host "linux_amd64") [("-c", "")%string] ["dist/game.P3D"; "standalone"]%string
                (mkGlobals "" "" "" "./" ∅ [] true "" "")
                (mkRequest "dist/game.P3D" "standalone"
                   (mkGlobals "game" "game" "" "./" ∅ [] true "" ""))
                [] eq_refl eq_refl) as H.
  exact (conj (proj1 H eq_refl) (proj1 (proj2 H) eq_refl)).
Defined.

(** ** The token dictionary *)

(** A cut at the first [c] gives back the string, and the head has no
    [c]. *)
Lemma partition_some c s h t :
  Py.partition c s = Some (h, t) ->
  s = h +:+ String c t /\ Py.contains c h = false.
Proof.
  revert h. induction s as [|x s IH]; intros h H; simpl in H; [discriminate H|].
  destruct (Ascii.eqb x c) eqn:E.
  - apply Ascii.eqb_eq in E. inversion H; subst. split; reflexivity.
  - destruct (Py.partition c s) as [[h0 t0]|]; [|discriminate H].
    inversion H; subst. destruct (IH h0 eq_refl) as [-> Hc].
    split; [reflexivity|]. simpl. now rewrite E, Hc.
Qed.

(** X9.  Every entry of the token dictionary comes from a [-t] option:
    its key is what precedes the first [=] of the stripped argument and
    its value all that follows.  In particular there is no token without
    a [-t]. *)
Theorem tokens_come_from_t_options w opts g (k v : string) :
  parse_options w opts [] = ([], inr g) ->
  tokens g !! k = Some v ->
  exists arg,
    In ("-t"%string, arg) opts
    /\ Py.strip arg = k +:+ "=" +:+ v
    /\ Py.contains "=" k = false.
Proof.
  intros Hp Hk.
  destruct (fold_options_token_source w opts _ _ _ _ _ _ Hp Hk) as [H|(arg & Ha & H)].
  - simpl in H. rewrite lookup_empty in H. discriminate H.
  - exists arg. split; [exact Ha|]. now apply partition_some in H.
Qed.

Lemma tokens_come_from_t_options_witness :
  exists arg,
    In ("-t"%string, arg) [("-t", " width=800 ")%string; ("-c", "")%string]
    /\ Py.strip arg = "width" +:+ "=" +:+ "800"
    /\ Py.contains "=" "width" = false.
Proof.
  exact (tokens_come_from_t_options
           (host "linux_amd64") [("-t", " width=800 ")%string; ("-c", "")%string]
           (mkGlobals "" "" "" "./" {[ "width"%string := "800"%string ]} [] true "" "")
           "width" "800" eq_refl eq_refl).
Defined.

(** X10.  Of several [-t] options with the same key the last one counts:
    the dictionary holds, for a key, the value of a [-t] option that no
    later [-t] option with that key follows. *)
Theorem last_token_wins w opts1 arg opts2 g (k v : string) :
  parse_options w (opts1 ++ ("-t"%string, arg) :: opts2) [] = ([], inr g) ->
  Py.contains "=" k = false ->
  Py.strip arg = k +:+ "=" +:+ v ->
  (forall a v', In ("-t"%string, a) opts2 -> Py.strip a <> k +:+ "=" +:+ v') ->
  tokens g !! k = Some v.
Proof.
  unfold parse_options. intros Hp Hk Hs Hlater.
  rewrite fold_each_app in Hp. unfold mbind, M_bind, bind in Hp.
  destruct (fold_each (option_step w) initial opts1 []) as [t1 [s1|g1]] eqn:H1;
    [discriminate Hp|].
  destruct (fold_options_cons _ _ _ _ _ _ _ _ Hp) as (g2 & E & H2).
  destruct (option_step_fields _ _ _ _ _ _ _ E) as (_ & _ & _ & _ & Ht).
  simpl in Ht. rewrite Hs in Ht.
  change (k +:+ "=" +:+ v) with (k +:+ String "=" v) in Ht.
  rewrite (partition_first _ _ _ Hk) in Ht.
  rewrite (fold_options_token_kept w opts2 _ _ _ _ k H2).
  - rewrite Ht. apply lookup_insert_eq.
  - intros a v' Ha Hp'. apply partition_some in Hp' as [Hp' _].
    apply (Hlater a v' Ha). exact Hp'.
Qed.

Lemma last_token_wins_witness :
  tokens (mkGlobals "" "" "" "./"
            {[ "width"%string := "800"%string; "height"%string := "5"%string ]}
            [] false "" "")
  !! "width"%string = Some "800"%string.
Proof.
  apply (last_token_wins
           (host "linux_amd64")
           [("-t", "width=640")%string] "width=800" [("-t", "height=5")%string]
           (mkGlobals "" "" "" "./"
              {[ "width"%string := "800"%string; "height"%string := "5"%string ]}
              [] false "" "")
           "width" "800").
  - vm_compute. reflexivity.
  - reflexivity.
  - reflexivity.
  - intros a v' [E|[]] H. inversion E; subst. vm_compute in H. discriminate H.
Defined.

(** ** Builds *)

(** X11.  With neither [-c] nor [-P], a run of a builder mode that
    completes leaves the choice of platforms to the builder: after the
    constructor it makes the one call [buildAll(outputDir)], and no
    single-platform build. *)
Theorem no_platform_choice_delegates_to_buildAll w opts args g r t1 t :
  parse_options w opts [] = ([], inr g) ->
  validate w g args [] = (t1, inr r) ->
  existsb (is_opt "-c") opts = false ->
  existsb (is_opt "-P") opts = false ->
  main w (GetoptOk opts args) = (t, Exit 0) ->
  (deploy_mode r = "standalone"%string ->
   invocations t = [NewStandalone (appFilename r) (tokens (vars r));
                    StandaloneBuildAll (outputDir (vars r))])
  /\ (deploy_mode r = "installer"%string ->
      invocations t = [NewInstaller (shortname (vars r)) (fullname (vars r))
                         (appFilename r) (version (vars r)) (tokens (vars r));
                       InstallerBuildAll (outputDir (vars r))]).
Proof.
  intros Hp Hv Hc HP Hm.
  destruct (request_platforms _ _ _ _ _ _ Hp Hv) as [Hps Hcp]. rewrite Hc in Hcp.
  assert (Hnil : platforms (vars r) = []).
  { rewrite Hps. clear -HP. induction opts as [|[o x] l IH]; [reflexivity|].
    simpl in *. apply orb_false_iff in HP as [H1 H2]. rewrite H1. auto. }
  split; intros E.
  - assert (Hin : In (deploy_mode r) DEPLOY_MODES) by (rewrite E; now left).
    destruct (completed_run _ _ _ _ _ _ _ _ Hp Hv Hin Hm) as [_ ->].
    unfold plan, standalone_builds. rewrite E, Hcp, Hnil. reflexivity.
  - assert (Hin : In (deploy_mode r) DEPLOY_MODES) by (rewrite E; right; now left).
    destruct (completed_run _ _ _ _ _ _ _ _ Hp Hv Hin Hm) as [_ ->].
    unfold plan, installer_builds. rewrite E, Hcp, Hnil. reflexivity.
Qed.

Lemma no_platform_choice_delegates_to_buildAll_witness :
  invocations [Invoke (NewInstaller "app" "My App" "app.p3d" "1.0" ∅);
               SetLicensename "GPL"; SetLicensefile "";
               Invoke (InstallerBuildAll "out")]
  = [NewInstaller "app" "My App" "app.p3d" "1.0" ∅; InstallerBuildAll "out"].
Proof.
  exact (proj2
           (no_platform_choice_delegates_to_buildAll
              (host "linux_amd64")
              [("-v", "1.0"); ("-N", "My App"); ("-l", "GPL"); ("-o", "out")]%string
              ["app.p3d"; "installer"]%string
              (mkGlobals "" "My App" "1.0" "out" ∅ [] false "GPL" "")
              (mkRequest "app.p3d" "installer"
                 (mkGlobals "app" "My App" "1.0" "out" ∅ [] false "GPL" ""))
              []
              [Invoke (NewInstaller "app" "My App" "app.p3d" "1.0" ∅);
               SetLicensename "GPL"; SetLicensefile "";
               Invoke (InstallerBuildAll "out")]
              eq_refl eq_refl eq_refl eq_refl eq_refl)
           eq_refl).
Defined.

(** X13.  When no collaborator raises, a valid request in a builder mode
    always runs to the end: every call the options ask for is made, one
    single-platform build per [-P] option when there is no [-c], and the
    exit code is 0, whatever the builds returned. *)
Theorem builds_continue_after_failures w opts args g r t1 :
  parse_options w opts [] = ([], inr g) ->
  validate w g args [] = (t1, inr r) ->
  deploy_mode r = "standalone"%string \/ deploy_mode r = "installer"%string ->
  (forall t c, collaborator w t c <> Raises) ->
  exists t,
    main w (GetoptOk opts args) = (t, Exit 0)
    /\ invocations t = plan w r
    /\ (existsb (is_opt "-c") opts = false ->
        map snd (builds (invocations t)) = map snd (List.filter (is_opt "-P") opts)).
Proof.
  intros Hp Hv Hmode Hno.
  rewrite (main_phases _ _ _ _ _ _ Hp Hv).
  destruct (dispatch w r t1) as [t2 res] eqn:Hd.
  assert (Hres : res = inr tt).
  { destruct res as [[c|e]|[]]; [| |reflexivity].
    - destruct (dispatch_cases _ _ _ _ _ Hd) as [[_ [[E _]|(e & E & _)]]|(Hn & _)];
        try discriminate E.
      exfalso. apply Hn. destruct Hmode as [->| ->]; simpl; auto.
    - destruct (dispatch_raises _ _ _ _ _ Hd) as [[-> _]|(_ & E & _)].
      + destruct (sar_dispatch w r _ _ Hd) as (t0 & c & _ & Hr). now apply Hno in Hr.
      + destruct Hmode as [H|H]; rewrite H in E; discriminate E. }
  subst res. exists t2. split; [reflexivity|].
  assert (Hplan : invocations t2 = plan w r).
  { destruct (dispatch_cases _ _ _ _ _ Hd) as [[_ [[_ E]|(e & E & _)]]|(_ & E & _)];
      try discriminate E.
    destruct (validate_ok _ _ _ _ _ _ Hv) as (a0 & a1 & _ & _ & _ & _ & _ & Ht & _).
    simpl in Ht. subst t1. rewrite invocations_warning in E. exact E. }
  split; [exact Hplan|]. intros Hc. rewrite Hplan.
  destruct (request_platforms _ _ _ _ _ _ Hp Hv) as [Hps Hcp]. rewrite Hc in Hcp.
  rewrite <- Hps. unfold plan, standalone_builds, installer_builds.
  destruct Hmode as [E|E]; rewrite E, Hcp; simpl;
    (destruct (platforms (vars r)) as [|p ps]; [reflexivity|]);
    change (Nat.eqb (length (p :: ps)) 0) with false; cbn iota.
  - rewrite (builds_standalone
               (fun q => Filename.join (outputDir (vars r))
                           (q +:+ "/" +:+ shortname (vars r) +:+ suffix q))).
    rewrite map_map. simpl. now rewrite map_id.
  - rewrite (builds_installer
               (fun q => Filename.join (outputDir (vars r)) (q +:+ "/"))).
    rewrite map_map. simpl. now rewrite map_id.
Qed.

Lemma builds_continue_after_failures_witness :
  collaborator (failing_host "linux_amd64" ["win32"; "osx_ppc"]%string) []
               (StandaloneBuild "./win32/app.exe" "win32")
  = Returns (Failure "build failed")
  /\ exists t,
       main (failing_host "linux_amd64" ["win32"; "osx_ppc"]%string)
            (GetoptOk [("-P", "win32"); ("-P", "osx_ppc")]%string
                      ["app.p3d"; "standalone"]%string)
       = (t, Exit 0)
       /\ invocations t
          = [NewStandalone "app.p3d" ∅;
             StandaloneBuild "./win32/app.exe" "win32";
             StandaloneBuild "./osx_ppc/app" "osx_ppc"]
       /\ (existsb (is_opt "-c") [("-P", "win32"); ("-P", "osx_ppc")]%string = false ->
           map snd (builds (invocations t)) = ["win32"; "osx_ppc"]%string).
Proof.
  split; [reflexivity|].
  apply (builds_continue_after_failures
           (failing_host "linux_amd64" ["win32"; "osx_ppc"]%string)
           [("-P", "win32"); ("-P", "osx_ppc")]%string
           ["app.p3d"; "standalone"]%string
           (mkGlobals "" "" "" "./" ∅ ["win32"; "osx_ppc"]%string false "" "")
           (mkRequest "app.p3d" "standalone"
              (mkGlobals "app" "app" "" "./" ∅ ["win32"; "osx_ppc"]%string false "" ""))
           []).
  - reflexivity.
  - reflexivity.
  - left. reflexivity.
  - intros t c. simpl. destruct c; try discriminate;
      match goal with |- context [if ?b then _ else _] => destruct b end;
      discriminate.
Defined.

(** X14.  No collaborator is constructed or called unless the options
    and the checks went through and the mode is one of the two builder
    modes; the first call is then the constructor of that mode's
    builder, with the request's data. *)
Theorem builders_only_after_validation w input t s :
  main w input = (t, s) ->
  invocations t <> [] ->
  exists opts args g t1 r,
    input = GetoptOk opts args
    /\ parse_options w opts [] = ([], inr g)
    /\ validate w g args [] = (t1, inr r)
    /\ ((deploy_mode r = "standalone"%string
         /\ exists rest,
              invocations t = NewStandalone (appFilename r) (tokens (vars r)) :: rest)
        \/ (deploy_mode r = "installer"%string
            /\ exists rest,
                 invocations t
                 = NewInstaller (shortname (vars r)) (fullname (vars r)) (appFilename r)
                     (version (vars r)) (tokens (vars r)) :: rest)).
Proof.
  intros Hm Hne. destruct input as [msg|opts args].
  { exfalso. apply Hne. inversion Hm; subst. reflexivity. }
  destruct (main_cases _ _ _ _ _ Hm) as [Hp|[(g & Hp & Hv)|(g & r & t1 & Hp & Hv & _)]].
  - exfalso. apply Hne.
    destruct (fold_options_quiet _ _ _ _ _ _ Hp) as [->|[-> _]]; reflexivity.
  - exfalso. apply Hne.
    destruct (validate_quiet _ _ _ _ _ _ Hv) as [ps [->|[-> _]]];
      [apply invocations_prints|reflexivity].
  - exists opts, args, g, t1, r. repeat (split; [assumption || reflexivity|]).
    destruct (run_follows_plan _ _ _ _ _ _ _ _ Hp Hv Hm) as [k Hk].
    rewrite Hk in *. unfold plan in *.
    destruct (String.eqb (deploy_mode r) "standalone") eqn:Es.
    { left. split; [now apply String.eqb_eq|].
      destruct k; [exfalso; now apply Hne|]. simpl. eauto. }
    destruct (String.eqb (deploy_mode r) "installer") eqn:Ei.
    { right. split; [now apply String.eqb_eq|].
      destruct k; [exfalso; now apply Hne|]. simpl. eauto. }
    exfalso. apply Hne. now destruct k.
Qed.

Lemma builders_only_after_validation_witness :
  exists opts args g t1 r,
    GetoptOk [("-c", "")%string] ["app.p3d"; "standalone"]%string = GetoptOk opts args
    /\ parse_options (host "win32") opts [] = ([], inr g)
    /\ validate (host "win32") g args [] = (t1, inr r)
    /\ ((deploy_mode r = "standalone"%string
         /\ exists rest,
              invocations [Invoke (NewStandalone "app.p3d" ∅);
                           SetBasename "app";
                           Invoke (StandaloneBuild "./app.exe" "win32")]
              = NewStandalone (appFilename r) (tokens (vars r)) :: rest)
        \/ (deploy_mode r = "installer"%string
            /\ exists rest,
                 invocations [Invoke (NewStandalone "app.p3d" ∅);
                              SetBasename "app";
                              Invoke (StandaloneBuild "./app.exe" "win32")]
                 = NewInstaller (shortname (vars r)) (fullname (vars r)) (appFilename r)
                     (version (vars r)) (tokens (vars r)) :: rest)).
Proof.
  apply (builders_only_after_validation
           (host "win32")
           (GetoptOk [("-c", "")%string] ["app.p3d"; "standalone"]%string)
           [Invoke (NewStandalone "app.p3d" ∅);
            SetBasename "app";
            Invoke (StandaloneBuild "./app.exe" "win32")]
           (Exit 0)).
  - reflexivity.
  - simpl. discriminate.
Defined.

(** ** How a run can end *)

(** X15.  A run that ends by [sys.exit] does so with code 0 or 1, and
    with code 1 only before anything was built or written: a run that
    exits with code 1 has called no collaborator and opened no file. *)
Theorem exit_code_is_zero_or_one w input t c :
  main w input = (t, Exit c) ->
  (c = 0 \/ c = 1) /\ (c = 1 -> invocations t = [] /\ files t = []).
Proof.
  intros Hm. destruct input as [msg|opts args].
  { inversion Hm; subst. split; [now right|]. intros _. split; reflexivity. }
  destruct (main_cases _ _ _ _ _ Hm)
    as [Hp|[(g & _ & Hv)|(g & r & t1 & _ & Hv & [Hd|[_ Hs]])]].
  - destruct (fold_options_stops _ _ _ _ _ _ Hp) as [(E & _)|[(E & _)|(E & _)]];
      inversion E; subst. split; [now left|]. discriminate.
  - pose proof (validate_exit _ _ _ _ _ _ Hv) as E. inversion E; subst.
    split; [now right|]. intros _.
    destruct (validate_quiet _ _ _ _ _ _ Hv) as [ps [->|[-> _]]].
    + split; [apply invocations_prints|apply files_prints].
    + split; reflexivity.
  - destruct (dispatch_cases _ _ _ _ _ Hd) as [[_ [[E _]|(e & E & _)]]|(_ & E & ->)];
      try discriminate E.
    inversion E; subst. split; [now right|]. intros _.
    destruct (validate_ok _ _ _ _ _ _ Hv) as (a0 & a1 & _ & _ & _ & _ & _ & -> & _).
    destruct (warning_prints g) as [ps ->]. simpl.
    split.
    + rewrite invocations_app, invocations_prints. reflexivity.
    + unfold files. rewrite files_from_prints. reflexivity.
  - inversion Hs; subst. split; [now left|]. discriminate.
Qed.

Lemma exit_code_is_zero_or_one_witness :
  main (host "linux_amd64") (GetoptOk [("-v", " ")%string] ["app.p3d"; "installer"]%string)
  = ([Print msg_version], Exit 1)
  /\ (1 = 0 \/ 1 = 1)
  /\ (1 = 1 -> invocations [Print msg_version] = [] /\ files [Print msg_version] = []).
Proof.
  split; [reflexivity|].
  exact (exit_code_is_zero_or_one
           (host "linux_amd64")
           (GetoptOk [("-v", " ")%string] ["app.p3d"; "installer"]%string)
           [Print msg_version] 1 eq_refl).
Defined.

(** X16.  The exceptions of a run: an [IndexError] comes only from a
    [-t] option whose stripped argument has no [=], and a [NameError]
    only from an option name the loop does not handle, which [getopt]
    never returns for the option string of line 116; both end the run
    before anything is printed.  With well-formed options the only
    exceptions left are those of a collaborator and of [open]. *)
Theorem option_loop_exceptions w opts args t e :
  main w (GetoptOk opts args) = (t, Uncaught e) ->
  (e = IndexError /\ t = []
   /\ exists arg, In ("-t"%string, arg) opts /\ Py.contains "=" (Py.strip arg) = false)
  \/ (e = NameError /\ t = []
      /\ exists oa, In oa opts /\ ~ In (fst oa) known_options)
  \/ ((e = BuilderError \/ e = IOError)
      /\ exists g, parse_options w opts [] = ([], inr g)).
Proof.
  intros Hm. destruct (main_cases _ _ _ _ _ Hm)
    as [Hp|[(g & _ & Hv)|(g & r & t1 & Hp & _ & [Hd|[_ Hs]])]].
  - destruct (fold_options_stops _ _ _ _ _ _ Hp)
      as [(E & _)|[(E & -> & Ha)|(E & -> & Ha)]]; inversion E; subst; auto.
  - apply validate_exit in Hv. discriminate Hv.
  - right; right. split; [|eauto].
    destruct (dispatch_raises _ _ _ _ _ Hd) as [[-> _]|[-> _]]; auto.
  - discriminate Hs.
Qed.

Lemma option_loop_exceptions_witness :
  (IndexError = IndexError /\ @nil Event = []
   /\ exists arg, In ("-t"%string, arg) [("-c", ""); ("-t", "width")]%string
                  /\ Py.contains "=" (Py.strip arg) = false)
  \/ (IndexError = NameError /\ @nil Event = []
      /\ exists oa, In oa [("-c", ""); ("-t", "width")]%string
                    /\ ~ In (fst oa) known_options)
  \/ ((IndexError = BuilderError \/ IndexError = IOError)
      /\ exists g, parse_options (host "linux_amd64")
                                 [("-c", ""); ("-t", "width")]%string []
                   = ([], inr g)).
Proof.
  exact (option_loop_exceptions
           (host "linux_amd64") [("-c", ""); ("-t", "width")]%string
           ["app.p3d"; "html"]%string [] IndexError eq_refl).
Defined.

(** ** Options that only the installer reads *)

Section InstallerOnly.

Variable w : World.

(** Outside installer mode the dispatch reads neither the version nor
    the license. *)
Lemma dispatch_reads r r' t :
  deploy_mode r <> "installer"%string ->
  appFilename r' = appFilename r ->
  deploy_mode r' = deploy_mode r ->
  shortname (vars r') = shortname (vars r) ->
  fullname (vars r') = fullname (vars r) ->
  outputDir (vars r') = outputDir (vars r) ->
  tokens (vars r') = tokens (vars r) ->
  platforms (vars r') = platforms (vars r) ->
  currentPlatform (vars r') = currentPlatform (vars r) ->
  dispatch w r' t = dispatch w r t.
Proof.
  destruct r as [app mode [sn fn ver od tk pl cp ln lf]].
  destruct r' as [app' mode' [sn' fn' ver' od' tk' pl' cp' ln' lf']].
  simpl. intros Hm -> -> -> -> -> -> -> ->.
  unfold dispatch. simpl.
  destruct (String.eqb mode "standalone"); [reflexivity|].
  destruct (String.eqb mode "installer") eqn:E; [|reflexivity].
  apply String.eqb_eq in E. contradiction.
Qed.

(** The rest of the script after the option loop, for variables that
    differ in version and license only. *)
Lemma rest_reads g g' a0 a1 t :
  Py.lower a1 <> "installer"%string ->
  shortname g' = shortname g ->
  fullname g' = fullname g ->
  outputDir g' = outputDir g ->
  tokens g' = tokens g ->
  platforms g' = platforms g ->
  currentPlatform g' = currentPlatform g ->
  (validate w g' [a0; a1] ≫= fun r => dispatch w r ≫= fun _ => sys_exit 0 (A := Empty_set)) t
  = (validate w g [a0; a1] ≫= fun r => dispatch w r ≫= fun _ => sys_exit 0) t.
Proof.
  intros Hm Hsn Hfn Hod Htk Hpl Hcp.
  unfold mbind, M_bind, bind.
  rewrite !validate_two. cbn zeta. unfold warning. rewrite Hsn, Hod.
  apply String.eqb_neq in Hm. rewrite Hm, !andb_false_r.
  destruct (negb (String.eqb (Py.lower (Filename.getExtension (fromOsSpecific w a0))) "p3d"));
    [reflexivity|].
  destruct (negb (file_exists w (fromOsSpecific w a0))); [reflexivity|].
  destruct (negb (Filename.nonzero (outputDir g))); [reflexivity|].
  rewrite (dispatch_reads
             (mkRequest (fromOsSpecific w a0) (Py.lower a1)
                        (defaulted (fromOsSpecific w a0) g))
             (mkRequest (fromOsSpecific w a0) (Py.lower a1)
                        (defaulted (fromOsSpecific w a0) g')));
    [reflexivity|..]; simpl.
  - now apply String.eqb_neq.
  - reflexivity.
  - reflexivity.
  - clear -Hsn Hfn.
    destruct g as [sn fn ver od tk pl cp ln lf], g' as [sn' fn' ver' od' tk' pl' cp' ln' lf'].
    simpl in *. subst. unfold defaulted. simpl.
    destruct (String.eqb sn ""); simpl; destruct (String.eqb fn ""); reflexivity.
  - clear -Hsn Hfn.
    destruct g as [sn fn ver od tk pl cp ln lf], g' as [sn' fn' ver' od' tk' pl' cp' ln' lf'].
    simpl in *. subst. unfold defaulted. simpl.
    destruct (String.eqb sn ""); simpl; destruct (String.eqb fn ""); reflexivity.
  - destruct (defaulted_fields (fromOsSpecific w a0) g) as (_ & -> & _).
    destruct (defaulted_fields (fromOsSpecific w a0) g') as (_ & -> & _). exact Hod.
  - destruct (defaulted_fields (fromOsSpecific w a0) g) as (_ & _ & -> & _).
    destruct (defaulted_fields (fromOsSpecific w a0) g') as (_ & _ & -> & _). exact Htk.
  - destruct (defaulted_fields (fromOsSpecific w a0) g) as (_ & _ & _ & -> & _).
    destruct (defaulted_fields (fromOsSpecific w a0) g') as (_ & _ & _ & -> & _). exact Hpl.
  - destruct (defaulted_fields (fromOsSpecific w a0) g) as (_ & _ & _ & _ & ->).
    destruct (defaulted_fields (fromOsSpecific w a0) g') as (_ & _ & _ & _ & ->). exact Hcp.
Qed.

End InstallerOnly.

(** X17.  The version and the license name and file matter to installer
    mode only: in any other mode, a [-v], [-l] or [-L] option added
    after the others changes nothing in the run. *)
Theorem version_and_license_only_for_installer w opts o x a0 a1 :
  In o ["-v"; "-l"; "-L"]%string ->
  Py.lower a1 <> "installer"%string ->
  main w (GetoptOk (opts ++ [(o, x)]) [a0; a1]) = main w (GetoptOk opts [a0; a1]).
Proof.
  intros Ho Hm.
  assert (Hrun : forall os,
             main w (GetoptOk os [a0; a1])
             = match parse_options w os [] with
               | (t0, inl s) => (t0, s)
               | (t0, inr g) =>
                   match (validate w g [a0; a1]
                            ≫= fun r => dispatch w r
                            ≫= fun _ => sys_exit 0 (A := Empty_set)) t0 with
                   | (t, inl s) => (t, s)
                   | (t, inr e) => match e with end
                   end
               end).
  { intros os. unfold main, pdeploy. unfold mbind at 1, M_bind at 1, bind at 1.
    destruct (parse_options w os []) as [t0 [s|g]]; reflexivity. }
  rewrite !Hrun. unfold parse_options. rewrite fold_each_app.
  unfold mbind at 1, M_bind at 1, bind at 1.
  destruct (fold_each (option_step w) initial opts []) as [t0 [s|g]]; [reflexivity|].
  assert (E : exists g', fold_each (option_step w) g [(o, x)] t0 = (t0, inr g')
                         /\ shortname g' = shortname g /\ fullname g' = fullname g
                         /\ outputDir g' = outputDir g /\ tokens g' = tokens g
                         /\ platforms g' = platforms g
                         /\ currentPlatform g' = currentPlatform g).
  { destruct Ho as [<-|[<-|[<-|[]]]]; eexists; (split; [reflexivity|]);
      simpl; repeat split; reflexivity. }
  destruct E as (g' & -> & Hsn & Hfn & Hod & Htk & Hpl & Hcp).
  rewrite (rest_reads w g g' a0 a1 t0 Hm Hsn Hfn Hod Htk Hpl Hcp). reflexivity.
Qed.

Lemma version_and_license_only_for_installer_witness :
  main (host "linux_amd64")
       (GetoptOk ([("-P", "win32")%string] ++ [("-v", "2.0")%string])
                 ["app.p3d"; "standalone"]%string)
  = main (host "linux_amd64")
         (GetoptOk [("-P", "win32")%string] ["app.p3d"; "standalone"]%string).
Proof.
  apply (version_and_license_only_for_installer
           (host "linux_amd64") [("-P", "win32")%string] "-v" "2.0" "app.p3d" "standalone").
  - left. reflexivity.
  - vm_compute. discriminate.
Defined.

(** ** Html mode *)

Section Html.

Variable w : World.





End Html.




(** ** Collaborators that raise *)

Section Raising.

Variable w : World.

Lemma answered_nil : answered w [].
Proof. intros t0 c rest E. destruct t0; discriminate E. Qed.

(** One more event keeps a trace answered, unless it is a call that
    raised. *)
Lemma answered_snoc t e :
  answered w t ->
  (forall c, e = Invoke c -> collaborator w t c <> Raises) ->
  answered w (t ++ [e]).
Proof.
  intros Ht He t0 c rest E.
  destruct rest as [|x rest _] using rev_ind.
  - apply app_inj_tail in E as [-> E]. now apply He.
  - change (t0 ++ Invoke c :: rest ++ [x]) with (t0 ++ (Invoke c :: rest) ++ [x]) in E.
    rewrite app_assoc in E. apply app_inj_tail in E as [E _].
    exact (Ht _ _ _ E).
Qed.

Lemma answered_app t extra :
  answered w t -> invocations extra = [] -> answered w (t ++ extra).
Proof.
  revert t. induction extra as [|e extra IH]; intros t Ht Hq.
  - now rewrite app_nil_r.
  - change (t ++ e :: extra) with (t ++ [e] ++ extra). rewrite app_assoc.
    apply IH.
    + apply answered_snoc; [exact Ht|]. intros c ->. discriminate Hq.
    + destruct e; simpl in Hq; try exact Hq. discriminate Hq.
Qed.

(** A raising call is the last event of an answered-so-far trace only. *)
Lemma raise_is_last t0 c rest t1 c1 :
  t0 ++ Invoke c :: rest = t1 ++ [Invoke c1] ->
  answered w t1 ->
  collaborator w t0 c = Raises ->
  rest = [].
Proof.
  intros E Ht Hr. destruct rest as [|x rest _] using rev_ind; [reflexivity|].
  exfalso.
  change (t0 ++ Invoke c :: rest ++ [x]) with (t0 ++ (Invoke c :: rest) ++ [x]) in E.
  rewrite app_assoc in E. apply app_inj_tail in E as [E _].
  symmetry in E. exact (Ht _ _ _ E Hr).
Qed.

Lemma ka_ret {A} (a : A) : keeps_answered w (mret a : M A).
Proof. intros t t' res H Ht. unfold_monad. inversion H; subst. exact Ht. Qed.

Lemma ka_bind {A B} (m : M A) (k : A -> M B) :
  keeps_answered w m -> (forall a, keeps_answered w (k a)) -> keeps_answered w (m ≫= k).
Proof.
  intros Hm Hk t t' res H Ht. unfold mbind, M_bind, bind in H.
  destruct (m t) as [t0 [s|a]] eqn:E.
  - inversion H; subst. exact (Hm _ _ _ E Ht).
  - exact (Hk a _ _ _ H (Hm _ _ _ E Ht)).
Qed.

Lemma ka_invoke c : keeps_answered w (invoke w c).
Proof.
  intros t t' res H Ht. unfold invoke in H.
  destruct (collaborator w t c) eqn:E; inversion H; subst.
  - apply answered_snoc; [exact Ht|]. intros c' Hc. inversion Hc; subst. congruence.
  - simpl. eauto.
Qed.

Lemma ka_emit e : invocations [e] = [] -> keeps_answered w (emit e).
Proof.
  intros He t t' res H Ht. unfold emit in H. inversion H; subst.
  now apply answered_app.
Qed.

Lemma ka_for_each {A} (body : A -> M unit) l :
  (forall x, keeps_answered w (body x)) -> keeps_answered w (for_each body l).
Proof.
  intros Hb. induction l as [|x l IH]; simpl.
  - apply ka_ret.
  - apply ka_bind; [apply Hb|intros _; exact IH].
Qed.

Ltac answers :=
  repeat first
    [ apply ka_bind; [|intros ?]
    | apply ka_invoke
    | apply ka_ret
    | apply ka_emit; reflexivity
    | apply ka_for_each; intros ?
    | match goal with |- keeps_answered _ (if ?c then _ else _) => destruct c end ].

Lemma ka_dispatch r : keeps_answered w (dispatch w r).
Proof.
  unfold dispatch.
  destruct (String.eqb (deploy_mode r) "standalone").
  { unfold deploy_standalone. cbn zeta. answers. }
  destruct (String.eqb (deploy_mode r) "installer").
  { unfold deploy_installer. cbn zeta. answers. }
  destruct (String.eqb (deploy_mode r) "html").
  { intros t t' res H Ht. rewrite deploy_html_run in H.
    destruct (can_open w _); inversion H; subst; simpl; now apply answered_app. }
  intros t t' res H Ht. unfold_monad. inversion H; subst. simpl.
  rewrite <- app_assoc. now apply answered_app.
Qed.

(** Every run ends well. *)
Lemma main_ends_well input t s : main w input = (t, s) -> ends_well w t s.
Proof.
  intros Hm. destruct input as [msg|opts args].
  { inversion Hm; subst. simpl. apply (answered_app []); [apply answered_nil|reflexivity]. }
  destruct (main_cases _ _ _ _ _ Hm)
    as [Hp|[(g & _ & Hv)|(g & r & t1 & _ & Hv & Hd)]].
  - assert (Ht : answered w t).
    { destruct (fold_options_quiet _ _ _ _ _ _ Hp) as [->|[-> _]];
        [apply answered_nil|apply (answered_app []); [apply answered_nil|reflexivity]]. }
    destruct (fold_options_stops _ _ _ _ _ _ Hp) as [(-> & _)|[(-> & _)|(-> & _)]];
      exact Ht.
  - rewrite (validate_exit _ _ _ _ _ _ Hv). simpl.
    destruct (validate_quiet _ _ _ _ _ _ Hv) as [ps [->|[-> _]]];
      (apply (answered_app []); [apply answered_nil|]);
      [apply invocations_prints|reflexivity].
  - assert (Ht1 : answered w t1).
    { destruct (validate_ok _ _ _ _ _ _ Hv) as (a0 & a1 & _ & _ & _ & _ & _ & -> & _).
      apply answered_app; [apply answered_nil|apply invocations_warning]. }
    destruct Hd as [Hd|[Hd ->]].
    + exact (ka_dispatch r _ _ _ Hd Ht1).
    + exact (ka_dispatch r _ _ _ Hd Ht1).
Qed.

End Raising.

(** X12.  A collaborator that raises ends the run at once.  In any run,
    a call that the collaborator answered by raising is the last event
    of the trace, so no later platform was tried, and the run's status
    is that exception; and a run whose status is a collaborator's
    exception has such a call as its last event. *)
Theorem raising_collaborator_ends_run w input t s :
  main w input = (t, s) ->
  (forall t0 c rest,
      t = t0 ++ Invoke c :: rest ->
      collaborator w t0 c = Raises ->
      rest = [] /\ s = Uncaught BuilderError)
  /\ (s = Uncaught BuilderError ->
      exists t0 c, t = t0 ++ [Invoke c] /\ collaborator w t0 c = Raises).
Proof.
  intros Hm. pose proof (main_ends_well w _ _ _ Hm) as Hw. split.
  - intros t0 c rest E Hr.
    assert (Hs : s = Uncaught BuilderError).
    { destruct s as [code|[]]; try reflexivity; simpl in Hw;
        exfalso; exact (Hw _ _ _ E Hr). }
    split; [|exact Hs]. subst s. simpl in Hw.
    destruct Hw as (t1 & c1 & E1 & _ & Ht1). rewrite E in E1.
    exact (raise_is_last w _ _ _ _ _ E1 Ht1 Hr).
  - intros ->. simpl in Hw. destruct Hw as (t0 & c & E & Hr & _). eauto.
Qed.

Lemma raising_collaborator_ends_run_witness :
  main (raising_host "linux_amd64" ["win32"%string])
       (GetoptOk [("-P", "osx_ppc"); ("-P", "win32"); ("-P", "linux_amd64")]%string
                 ["app.p3d"; "standalone"]%string)
  = ([Invoke (NewStandalone "app.p3d" ∅);
      SetBasename "app";
      Invoke (StandaloneBuild "./osx_ppc/app" "osx_ppc");
      Invoke (StandaloneBuild "./win32/app.exe" "win32")],
     Uncaught BuilderError)
  /\ collaborator (raising_host "linux_amd64" ["win32"%string])
                  [Invoke (NewStandalone "app.p3d" ∅);
                   SetBasename "app";
                   Invoke (StandaloneBuild "./osx_ppc/app" "osx_ppc")]
                  (StandaloneBuild "./win32/app.exe" "win32")
     = Raises
  /\ (forall t0 c rest,
         [Invoke (NewStandalone "app.p3d" ∅);
          SetBasename "app";
          Invoke (StandaloneBuild "./osx_ppc/app" "osx_ppc");
          Invoke (StandaloneBuild "./win32/app.exe" "win32")]
         = t0 ++ Invoke c :: rest ->
         collaborator (raising_host "linux_amd64" ["win32"%string]) t0 c = Raises ->
         rest = [] /\ Uncaught BuilderError = Uncaught BuilderError).
Proof.
  split; [reflexivity|]. split; [reflexivity|].
  exact (proj1 (raising_collaborator_ends_run
                  (raising_host "linux_amd64" ["win32"%string])
                  (GetoptOk [("-P", "osx_ppc"); ("-P", "win32"); ("-P", "linux_amd64")]%string
                            ["app.p3d"; "standalone"]%string)
                  [Invoke (NewStandalone "app.p3d" ∅);
                   SetBasename "app";
                   Invoke (StandaloneBuild "./osx_ppc/app" "osx_ppc");
                   Invoke (StandaloneBuild "./win32/app.exe" "win32")]
                  (Uncaught BuilderError) eq_refl)).
Defined.
